(** * apolloServer: provider clients, fallback coordinator and AI resolvers

    A shallow embedding of [src/index.ts]: the two chat-completion clients
    ([callOpenAI], [callDeepSeek]), the coordinator ([callAI]) and the three
    AI resolvers ([chatGPT], [deepseek], [askAI]).

    The code is asynchronous JavaScript that talks to the network, throws
    and logs.  It is modelled as a state-and-exception monad over a world
    that records every HTTP exchange and every console line; the network is
    an oracle that answers each request from the exchanges made so far. *)

From Stdlib Require Import String Ascii List ZArith QArith Bool Lia DecimalString.
Import ListNotations.
Local Open Scope string_scope.

(* ===================================================================== *)
(** ** JavaScript values as the code meets them *)
(* ===================================================================== *)

Module Js.

(** What [response.json()] yields.  Numbers are doubles in JavaScript; the
    code never computes with them (it tests them for truthiness and hands
    them on), so a rational stands for the number. *)
#[warnings="-register-all"]
Inductive json : Type :=
| JNull
| JBool (b : bool)
| JNum (q : Q)
| JStr (s : string)
| JArr (elems : list json)
| JObj (fields : list (string * json)).

(** A JavaScript value read out of parsed JSON: [None] is [undefined]. *)
Definition value : Type := option json.

Definition undefined : value := None.

(** Error objects: the constructor name and the message. *)
Record error : Type := mkError { name : string; message : string }.

(** [new Error(msg)] *)
Definition Error (msg : string) : error := mkError "Error" msg.
Definition TypeError (msg : string) : error := mkError "TypeError" msg.

(** How an evaluation ends: with a value or with a thrown error. *)
Inductive completion (A : Type) : Type :=
| Normal (a : A)
| Throw (e : error).
Arguments Normal {A} a.
Arguments Throw {A} e.

(** Property keys: [x.name] and [x[i]]. *)
Inductive key : Type :=
| Name (s : string)
| Index (i : nat).

Definition show_nat (n : nat) : string :=
  NilZero.string_of_uint (Nat.to_uint n).

(** [`${n}`] for an integral number such as [response.status]. *)
Definition show_Z (z : Z) : string :=
  NilZero.string_of_int (Z.to_int z).

Definition key_text (k : key) : string :=
  match k with
  | Name s => s
  | Index i => show_nat i
  end.

(** Own property of an object, first binding of the key. *)
Fixpoint assoc (k : string) (fields : list (string * json)) : value :=
  match fields with
  | [] => None
  | (k', v) :: rest => if String.eqb k k' then Some v else assoc k rest
  end.

(** Property read on a value that is neither [null] nor [undefined].
    The names the source reads ([error], [type], [choices], [message],
    [content], [usage], [prompt_tokens], [completion_tokens],
    [total_tokens]) are on no prototype, so a primitive or an array
    answers [undefined] for them; an index reads an array element or a
    character of a string. *)
Definition own (j : json) (k : key) : value :=
  match j, k with
  | JObj fields, _ => assoc (key_text k) fields
  | JArr elems, Index i => nth_error elems i
  | JStr s, Index i =>
      match String.get i s with
      | Some c => Some (JStr (String c EmptyString))
      | None => None
      end
  | _, _ => None
  end.

(** [v.k]: a TypeError on [null] and [undefined]. *)
Definition get (v : value) (k : key) : completion value :=
  match v with
  | None =>
      Throw (TypeError ("Cannot read properties of undefined (reading '"
                          ++ key_text k ++ "')"))
  | Some JNull =>
      Throw (TypeError ("Cannot read properties of null (reading '"
                          ++ key_text k ++ "')"))
  | Some j => Normal (own j k)
  end.

(** The test of [?.]: is the value [null] or [undefined]? *)
Definition nullish (v : value) : bool :=
  match v with
  | None | Some JNull => true
  | Some _ => false
  end.

(** ToBoolean. *)
Definition truthy (v : value) : bool :=
  match v with
  | None => false
  | Some JNull => false
  | Some (JBool b) => b
  | Some (JNum q) => negb (Qeq_bool q 0)
  | Some (JStr s) => negb (String.eqb s "")
  | Some (JArr _) => true
  | Some (JObj _) => true
  end.

(** [v || d] where [d] is a string literal. *)
Definition or_string (v : value) (d : string) : json :=
  match v with
  | Some j => if truthy v then j else JStr d
  | None => JStr d
  end.

(** [v === 'lit'] *)
Definition strict_eq_string (v : value) (lit : string) : bool :=
  match v with
  | Some (JStr s) => String.eqb s lit
  | _ => false
  end.

(** An optional string: a binding of [env], an optional argument. *)
Definition truthy_string (s : option string) : bool :=
  match s with
  | Some t => negb (String.eqb t "")
  | None => false
  end.

(** [a || b] on optional strings. *)
Definition or_else (a b : option string) : option string :=
  if truthy_string a then a else b.

(** [a || 'lit'] on an optional string. *)
Definition or_literal (a : option string) (lit : string) : string :=
  match a with
  | Some t => if truthy_string a then t else lit
  | None => lit
  end.

(** A parameter or destructuring default, [x = 'lit']: only [undefined]
    takes the default. *)
Definition default_to (lit : string) (a : option string) : string :=
  match a with
  | Some t => t
  | None => lit
  end.

(** [`${s}`] for an optional string. *)
Definition template (s : option string) : string :=
  match s with
  | Some t => t
  | None => "undefined"
  end.

End Js.

Import Js.

(* ===================================================================== *)
(** ** HTTP as [fetch] shows it *)
(* ===================================================================== *)

Module Http.

Record Request : Type := mkRequest {
  url : string;
  method : string;
  headers : list (string * string);
  body : string
}.

(** A response: its status, its body as [response.text()] gives it and as
    [response.json()] gives it ([Throw] when the body is not JSON). *)
Record Response : Type := mkResponse {
  status : Z;
  text : string;
  json_body : completion json
}.

(** [response.ok] *)
Definition ok (r : Response) : bool :=
  ((200 <=? status r) && (status r <=? 299))%Z.

(** The promise of [fetch]: fulfilled with a response, or rejected. *)
Inductive Outcome : Type :=
| Fulfilled (r : Response)
| Rejected (e : error).

Definition Exchange : Type := (Request * Outcome)%type.

(** The network: the answer to a request, given the exchanges so far. *)
Definition Net : Type := list Exchange -> Request -> Outcome.

End Http.

Import Http.

(* ===================================================================== *)
(** ** The effect monad: exchanges, console, exceptions *)
(* ===================================================================== *)

Module Eff.

Inductive arg : Type :=
| AStr (s : string)
| ANum (z : Z)
| AErr (e : error).

Inductive line : Type :=
| Log (args : list arg)
| Err (args : list arg).

Record World : Type := mkWorld {
  trace : list Exchange;
  console : list line
}.

Definition M (A : Type) : Type := World -> completion A * World.

Definition ret {A} (a : A) : M A := fun w => (Normal a, w).

Definition throw {A} (e : error) : M A := fun w => (Throw e, w).

Definition bind {A B} (m : M A) (k : A -> M B) : M B :=
  fun w =>
    match m w with
    | (Normal a, w') => k a w'
    | (Throw e, w') => (Throw e, w')
    end.

(** [try { m } catch (error) { h error }] *)
Definition try_catch {A} (m : M A) (h : error -> M A) : M A :=
  fun w =>
    match m w with
    | (Normal a, w') => (Normal a, w')
    | (Throw e, w') => h e w'
    end.

(** [await p] for a promise that is already settled. *)
Definition await {A} (c : completion A) : M A :=
  fun w => (c, w).

(** [if (c) { m }] *)
Definition when (c : bool) (m : M unit) : M unit :=
  if c then m else ret tt.

Definition console_log (args : list arg) : M unit :=
  fun w => (Normal tt, mkWorld (trace w) (console w ++ [Log args])).

Definition console_error (args : list arg) : M unit :=
  fun w => (Normal tt, mkWorld (trace w) (console w ++ [Err args])).

(** [await fetch(req)] against the network [net]. *)
Definition fetch (net : Net) (req : Request) : M Response :=
  fun w =>
    let out := net (trace w) req in
    let w' := mkWorld (trace w ++ [(req, out)]) (console w) in
    match out with
    | Fulfilled r => (Normal r, w')
    | Rejected e => (Throw e, w')
    end.

(** The requests issued so far, oldest first. *)
Definition requests (w : World) : list Request := map fst (trace w).

Definition start : World := mkWorld [] [].

End Eff.

Import Eff.

Declare Scope eff_scope.
Delimit Scope eff_scope with eff.
Notation "x <- m ;; k" := (bind m (fun x => k))
  (at level 100, m at next level, right associativity) : eff_scope.
Notation "m ;; k" := (bind m (fun _ => k))
  (at level 100, right associativity) : eff_scope.
Local Open Scope eff_scope.

(* ===================================================================== *)
(** ** The data of index.ts *)
(* ===================================================================== *)

Record Env : Type := mkEnv {
  OPENAI_API_KEY : option string;
  DEEPSEEK_API_KEY : option string;
  ENVIRONMENT : option string;
  DEFAULT_MODEL : option string
}.

Inductive Role : Type := system | user | assistant.

Record AIMessage : Type := mkMessage {
  role : Role;
  content : string
}.

(** [{ content, usage? }], the result of a client. *)
Record ClientResult : Type := mkClientResult {
  cr_content : json;
  cr_usage : value
}.

(** [{ ...result, provider }], the result of [callAI]. *)
Record AIResult : Type := mkAIResult {
  ar_content : json;
  ar_usage : value;
  ar_provider : string
}.

(** The GraphQL type [Usage] as the resolvers build it. *)
Record Usage : Type := mkUsage {
  promptTokens : value;
  completionTokens : value;
  totalTokens : value
}.

(** The GraphQL type [AIResponse] as the resolvers build it. *)
Record AIResponse : Type := mkAIResponse {
  resp_content : json;
  resp_model : string;
  resp_provider : string;
  resp_usage : Usage
}.

Definition role_text (r : Role) : string :=
  match r with
  | system => "system"
  | user => "user"
  | assistant => "assistant"
  end.

Definition message_json (m : AIMessage) : json :=
  JObj [("role", JStr (role_text m.(role))); ("content", JStr m.(content))].

(** The object literal [{ model, messages, temperature: 0.7 }]. *)
Definition chat_body (model : string) (messages : list AIMessage) : json :=
  JObj [("model", JStr model);
        ("messages", JArr (map message_json messages));
        ("temperature", JNum (7 # 10))].

Definition openai_url : string := "https://api.openai.com/v1/chat/completions".
Definition deepseek_url : string := "https://api.deepseek.com/v1/chat/completions".

(** [result.usage ? { promptTokens: result.usage.prompt_tokens, ... }
                  : { promptTokens: 0, ... }],
    the conditional written out in each of the three AI resolvers. *)
Definition usage_or_zeros (u : value) : Usage :=
  match u with
  | Some j =>
      if truthy u
      then mkUsage (own j (Name "prompt_tokens"))
                   (own j (Name "completion_tokens"))
                   (own j (Name "total_tokens"))
      else mkUsage (Some (JNum 0)) (Some (JNum 0)) (Some (JNum 0))
  | None => mkUsage (Some (JNum 0)) (Some (JNum 0)) (Some (JNum 0))
  end.

Definition quota_message : string := "OpenAI账户余额不足，请充值后再试".

Section Gateway.

(** [JSON.stringify], a function of the runtime. *)
Variable stringify : json -> string.

(** The network the worker runs against. *)
Variable net : Net.

Definition chat_request (endpoint : string) (apiKey : option string)
           (model : string) (messages : list AIMessage) : Request :=
  mkRequest endpoint "POST"
            [("Content-Type", "application/json");
             ("Authorization", "Bearer " ++ template apiKey)]
            (stringify (chat_body model messages)).

(** [data.choices[0]?.message.content || 'No response'] *)
Definition first_content (data : json) : M json :=
  choices <- await (get (Some data) (Name "choices")) ;;
  first <- await (get choices (Index 0)) ;;
  c <- (if nullish first then ret undefined
        else (msg <- await (get first (Name "message")) ;;
              await (get msg (Name "content")))) ;;
  ret (or_string c "No response").

Definition callOpenAI (messages : list AIMessage) (apiKey : option string)
           (model : option string) : M ClientResult :=
  let model := default_to "gpt-3.5-turbo" model in
  try_catch
    (when (negb (truthy_string apiKey))
          (throw (Error "OpenAI API key is not configured")) ;;
     response <- fetch net (chat_request openai_url apiKey model messages) ;;
     when (negb (ok response))
          (errorData <- await (json_body response) ;;
           err <- await (get (Some errorData) (Name "error")) ;;
           ty <- (if nullish err then ret undefined
                  else await (get err (Name "type"))) ;;
           when (strict_eq_string ty "insufficient_quota")
                (throw (Error quota_message)) ;;
           throw (Error ("OpenAI API error: " ++ show_Z (status response)
                           ++ " " ++ stringify errorData))) ;;
     data <- await (json_body response) ;;
     c <- first_content data ;;
     u <- await (get (Some data) (Name "usage")) ;;
     ret (mkClientResult c u))
    (fun error =>
       console_error [AStr "Error calling OpenAI:"; AErr error] ;;
       throw error).

Definition callDeepSeek (messages : list AIMessage) (apiKey : option string)
           (model : option string) : M ClientResult :=
  let model := default_to "deepseek-chat" model in
  try_catch
    (when (negb (truthy_string apiKey))
          (throw (Error "DeepSeek API key is not configured")) ;;
     console_log [AStr "Calling DeepSeek API..."] ;;
     response <- fetch net (chat_request deepseek_url apiKey model messages) ;;
     when (negb (ok response))
          (let errorText := text response in
           console_error [AStr "DeepSeek API Error:";
                          ANum (status response); AStr errorText] ;;
           throw (Error ("DeepSeek API error: " ++ show_Z (status response)
                           ++ " " ++ errorText))) ;;
     data <- await (json_body response) ;;
     console_log [AStr "DeepSeek response received"] ;;
     c <- first_content data ;;
     u <- await (get (Some data) (Name "usage")) ;;
     ret (mkClientResult c u))
    (fun error =>
       console_error [AStr "Error calling DeepSeek:"; AErr error] ;;
       throw error).

(** [{ ...result, provider }] *)
Definition with_provider (provider : string) (r : ClientResult) : AIResult :=
  mkAIResult (cr_content r) (cr_usage r) provider.

Definition callAI (messages : list AIMessage) (env : Env)
           (provider : option string) (model : option string) : M AIResult :=
  let provider := default_to "openai" provider in
  try_catch
    (result <-
       (if String.eqb provider "deepseek"
        then callDeepSeek messages (DEEPSEEK_API_KEY env)
                          (Some (or_literal model "deepseek-chat"))
        else callOpenAI messages (OPENAI_API_KEY env)
                        (Some (or_literal (or_else model (DEFAULT_MODEL env))
                                          "deepseek-chat"))) ;;
     ret (with_provider provider result))
    (fun error =>
       console_log [AStr (provider ++ " failed, trying fallback...")] ;;
       if String.eqb provider "openai" && truthy_string (DEEPSEEK_API_KEY env)
       then
         console_log [AStr "Falling back to DeepSeek..."] ;;
         fallbackResult <- callDeepSeek messages (DEEPSEEK_API_KEY env)
                                        (Some "deepseek-chat") ;;
         ret (with_provider "deepseek" fallbackResult)
       else if String.eqb provider "deepseek"
               && truthy_string (OPENAI_API_KEY env)
       then
         console_log [AStr "Falling back to OpenAI..."] ;;
         fallbackResult <- callOpenAI messages (OPENAI_API_KEY env)
                                      (Some "gpt-3.5-turbo") ;;
         ret (with_provider "openai" fallbackResult)
       else throw error).

(** The resolvers.  Arguments are the fields of the GraphQL argument
    object; an argument left out of the query is [None] (an argument given
    as an explicit [null] is outside this model). *)

Definition chatGPT (prompt : string) (model : option string) (env : Env)
  : M AIResponse :=
  let model := default_to "gpt-3.5-turbo" model in
  let messages := [mkMessage user prompt] in
  try_catch
    (result <- callOpenAI messages (OPENAI_API_KEY env) (Some model) ;;
     ret (mkAIResponse (cr_content result) model "openai"
                       (usage_or_zeros (cr_usage result))))
    (fun error => throw (Error ("ChatGPT error: " ++ message error))).

Definition deepseek (prompt : string) (model : option string) (env : Env)
  : M AIResponse :=
  let model := default_to "deepseek-chat" model in
  let messages := [mkMessage user prompt] in
  try_catch
    (result <- callDeepSeek messages (DEEPSEEK_API_KEY env) (Some model) ;;
     ret (mkAIResponse (cr_content result) model "deepseek"
                       (usage_or_zeros (cr_usage result))))
    (fun error => throw (Error ("DeepSeek error: " ++ message error))).

Definition askAI (prompt : string) (provider : option string)
           (model : option string) (env : Env) : M AIResponse :=
  let provider := default_to "openai" provider in
  let messages := [mkMessage user prompt] in
  try_catch
    (result <- callAI messages env (Some provider) model ;;
     ret (mkAIResponse (ar_content result)
                       (or_literal model
                          (if String.eqb provider "deepseek"
                           then "deepseek-chat" else "gpt-3.5-turbo"))
                       (ar_provider result)
                       (usage_or_zeros (ar_usage result))))
    (fun error => throw (Error ("AI query failed: " ++ message error))).

End Gateway.

(* ===================================================================== *)
(** ** The Pokemon resolvers *)
(* ===================================================================== *)

Definition nl : string := String (ascii_of_nat 10) EmptyString.

Fixpoint spaces (n : nat) : string :=
  match n with
  | O => ""
  | S k => " " ++ spaces k
  end.

(** [`https://pokeapi.co/api/v2/pokemon/${id}`] *)
Definition pokeapi_url (id : string) : string :=
  "https://pokeapi.co/api/v2/pokemon/" ++ id.

(** What [fetch(url)] sends: a GET without headers or body. *)
Definition get_request (u : string) : Request := mkRequest u "GET" [] "".

(** Calling an async function without awaiting it: its effects happen and
    the caller holds a promise, here in its settled state. *)
Definition promise {A} (m : M A) : M (completion A) :=
  fun w => let (c, w') := m w in (Normal c, w').

(** [await Promise.all([p1, p2])]: both results, or the rejection that came
    first; when both reject, which one came first is the runtime's
    scheduling, given as [second_first]. *)
Definition Promise_all2 {A B} (second_first : bool)
           (p1 : completion A) (p2 : completion B) : M (A * B) :=
  match p1, p2 with
  | Normal a, Normal b => ret (a, b)
  | Throw e, Normal _ => throw e
  | Normal _, Throw e => throw e
  | Throw e1, Throw e2 => throw (if second_first then e2 else e1)
  end.

(** [xs.map(f)] with a callback that may throw: in order, stopping at the
    first throw. *)
Fixpoint map_M {A B} (f : A -> M B) (xs : list A) : M (list B) :=
  match xs with
  | [] => ret []
  | x :: rest => y <- f x ;; ys <- map_M f rest ;; ret (y :: ys)
  end.

Definition info_persona : string := "你是一个Pokemon专家，请用简洁有趣的方式介绍Pokemon。".
Definition compare_persona : string := "你是一个Pokemon专家，请对比分析两个Pokemon的能力。".

(** The text [join] gives an element of an array: empty for [null]. *)
Definition element_text (text : json -> completion string) (e : json)
  : completion string :=
  match e with
  | JNull => Normal ""
  | _ => text e
  end.

(** The texts of the elements, in order, up to the first that throws. *)
Fixpoint texts (text : json -> completion string) (elems : list json)
  : completion (list string) :=
  match elems with
  | [] => Normal []
  | e :: rest =>
      match element_text text e with
      | Normal s =>
          match texts text rest with
          | Normal ss => Normal (s :: ss)
          | Throw x => Throw x
          end
      | Throw x => Throw x
      end
  end.

(** Induction on JSON values that reaches the elements of an array. *)
Fixpoint json_elems_ind (P : json -> Prop)
         (HNull : P JNull) (HBool : forall b, P (JBool b))
         (HNum : forall q, P (JNum q)) (HStr : forall s, P (JStr s))
         (HArr : forall elems, Forall P elems -> P (JArr elems))
         (HObj : forall fields, P (JObj fields))
         (j : json) {struct j} : P j :=
  match j with
  | JNull => HNull
  | JBool b => HBool b
  | JNum q => HNum q
  | JStr s => HStr s
  | JArr elems =>
      HArr elems
           ((fix all (l : list json) : Forall P l :=
               match l with
               | [] => Forall_nil P
               | e :: rest =>
                   Forall_cons e
                     (json_elems_ind P HNull HBool HNum HStr HArr HObj e)
                     (all rest)
               end) elems)
  | JObj fields => HObj fields
  end.

Section Pokemon.

(** [JSON.stringify], the network, the text of a number
    ([Number.prototype.toString]), the URL that [new Request(url)] holds
    (or the TypeError of the constructor),
    [String.prototype.toLowerCase], and which of two rejected promises
    rejected first. *)
Variable stringify : json -> string.
Variable net : Net.
Variable number_text : Q -> string.
Variable request_url : string -> completion string.
Variable toLowerCase : string -> string.
Variable second_first : bool.

(** ToString on a JSON value, as a template literal and [join] apply it.
    An array is joined with commas.  A plain object prints as
    [[object Object]], unless it has an own [toString] property: that
    property is then no function and the conversion throws. *)
Fixpoint toString (j : json) : completion string :=
  match j with
  | JNull => Normal "null"
  | JBool true => Normal "true"
  | JBool false => Normal "false"
  | JNum q => Normal (number_text q)
  | JStr s => Normal s
  | JArr elems =>
      match texts toString elems with
      | Normal ss => Normal (String.concat "," ss)
      | Throw x => Throw x
      end
  | JObj fields =>
      match assoc "toString" fields with
      | Some _ => Throw (TypeError "Cannot convert object to primitive value")
      | None => Normal "[object Object]"
      end
  end.

(** [`${v}`] *)
Definition interpolate (v : value) : completion string :=
  match v with
  | None => Normal "undefined"
  | Some j => toString j
  end.

(** The text [join] gives an element: empty for [null] and [undefined]. *)
Definition join_text (v : value) : completion string :=
  if nullish v then Normal "" else interpolate v.

(** [pokemon]: [new Request(url)] parses the URL, and the request carries
    the URL as parsed; the [cf] options of the call ([cacheTtl],
    [cacheEverything]) steer the edge cache and are no part of the request;
    the status of the response is not looked at. *)
Definition pokemon (id : string) : M json :=
  u <- await (request_url (pokeapi_url id)) ;;
  result <- fetch net (get_request u) ;;
  await (json_body result).

Definition pokemonInfo (name : string) (provider : option string) (env : Env)
  : M json :=
  let provider := default_to "openai" provider in
  let messages :=
    [mkMessage system info_persona;
     mkMessage user ("请介绍一下" ++ name ++ "这个Pokemon的特点、能力和趣事。")] in
  result <- callAI stringify net messages env (Some provider) None ;;
  ret (ar_content result).

(** [fetch(url).then(r => r.json())] *)
Definition fetch_json (u : string) : M json :=
  r <- fetch net (get_request u) ;;
  await (json_body r).

(** [data.types.map((t: any) => t.type.name).join(', ')] for the variable
    named [var]. *)
Definition type_names (var : string) (data : json) : M string :=
  types <- await (get (Some data) (Name "types")) ;;
  _ <- await (get types (Name "map")) ;;
  match types with
  | Some (JArr elems) =>
      names <- map_M (fun t => ty <- await (get (Some t) (Name "type")) ;;
                               await (get ty (Name "name"))) elems ;;
      parts <- map_M (fun v => await (join_text v)) names ;;
      ret (String.concat ", " parts)
  | _ => throw (TypeError (var ++ ".types.map is not a function"))
  end.

(** One line of the comparison: name, height, weight, types; each
    substitution is converted to text before the next is evaluated. *)
Definition facts (var : string) (pokemon : string) (data : json) : M string :=
  height <- await (get (Some data) (Name "height")) ;;
  height_text <- await (interpolate height) ;;
  weight <- await (get (Some data) (Name "weight")) ;;
  weight_text <- await (interpolate weight) ;;
  types <- type_names var data ;;
  ret (pokemon ++ ": 身高" ++ height_text
               ++ ", 体重" ++ weight_text
               ++ ", 类型" ++ types).

Definition comparePokemon (pokemon1 pokemon2 : string)
           (provider : option string) (env : Env) : M json :=
  let provider := default_to "openai" provider in
  p1 <- promise (fetch_json (pokeapi_url (toLowerCase pokemon1))) ;;
  p2 <- promise (fetch_json (pokeapi_url (toLowerCase pokemon2))) ;;
  data <- Promise_all2 second_first p1 p2 ;;
  let (data1, data2) := data in
  line1 <- facts "data1" pokemon1 data1 ;;
  line2 <- facts "data2" pokemon2 data2 ;;
  let messages :=
    [mkMessage system compare_persona;
     mkMessage user
       (nl ++ spaces 16 ++ "请对比" ++ pokemon1 ++ "和" ++ pokemon2 ++ "："
           ++ nl ++ spaces 16 ++ line1
           ++ nl ++ spaces 16 ++ line2
           ++ nl ++ spaces 16
           ++ nl ++ spaces 16 ++ "请分析它们的优劣势和战斗特点。"
           ++ nl ++ spaces 14)] in
  result <- callAI stringify net messages env (Some provider) None ;;
  ret (ar_content result).

End Pokemon.

(* ===================================================================== *)
(** ** The worker's [fetch] handler *)
(* ===================================================================== *)

(** Byte-lowercase, the case folding of header names. *)
Definition byte_lower (c : ascii) : ascii :=
  let n := nat_of_ascii c in
  if (65 <=? n)%nat && (n <=? 90)%nat then ascii_of_nat (n + 32) else c.

Fixpoint lowercase (s : string) : string :=
  match s with
  | EmptyString => EmptyString
  | String c rest => String (byte_lower c) (lowercase rest)
  end.

(** Header names match without regard to case. *)
Definition same_name (a b : string) : bool :=
  String.eqb (lowercase a) (lowercase b).

(** A [Headers] object: its header list, in order. *)
Definition Headers : Type := list (string * string).

Fixpoint headers_values (name : string) (hs : Headers) : list string :=
  match hs with
  | [] => []
  | (n, v) :: rest =>
      if same_name n name then v :: headers_values name rest
      else headers_values name rest
  end.

(** [headers.get(name)]: the values under the name, joined, or [null]. *)
Definition headers_get (name : string) (hs : Headers) : option string :=
  match headers_values name hs with
  | [] => None
  | vs => Some (String.concat ", " vs)
  end.

Fixpoint headers_delete (name : string) (hs : Headers) : Headers :=
  match hs with
  | [] => []
  | (n, v) :: rest =>
      if same_name n name then headers_delete name rest
      else (n, v) :: headers_delete name rest
  end.

(** [headers.set(name, value)]: the first header of that name takes the
    value and the others go; without one, the header is appended. *)
Fixpoint headers_set (name value : string) (hs : Headers) : Headers :=
  match hs with
  | [] => [(name, value)]
  | (n, v) :: rest =>
      if same_name n name then (n, value) :: headers_delete name rest
      else (n, v) :: headers_set name value rest
  end.

(** A [Response] as the handler reads and builds it. *)
Record WebResponse : Type := mkWebResponse {
  web_status : Z;
  web_statusText : string;
  web_headers : Headers;
  web_body : option string
}.

(** A status that goes without a body. *)
Definition null_body_status (status : Z) : bool :=
  ((status =? 101) || (status =? 103) || (status =? 204) || (status =? 205)
   || (status =? 304))%Z.

(** The bytes of a reason phrase: tab, space, visible ASCII, and the bytes
    from 128 on. *)
Definition reason_byte (c : ascii) : bool :=
  let n := nat_of_ascii c in
  ((n =? 9) || (n =? 32) || ((33 <=? n) && (n <=? 126)) || (128 <=? n))%nat.

Fixpoint is_reason_phrase (s : string) : bool :=
  match s with
  | EmptyString => true
  | String c rest => reason_byte c && is_reason_phrase rest
  end.

(** [new Response(body, { status, statusText, headers })] with a [Headers]
    object and a body that is [null] or a stream not yet read: a RangeError
    for a status outside 200..599, a TypeError for a status text that is no
    reason phrase and for a body with a status that goes without one. *)
Definition new_Response (body : option string) (status : Z)
           (statusText : string) (headers : Headers)
  : completion WebResponse :=
  if ((status <? 200) || (599 <? status))%Z
  then Throw (mkError "RangeError"
                "Responses may only be constructed with status codes in the range 200 to 599, inclusive.")
  else if negb (is_reason_phrase statusText)
  then Throw (TypeError "Invalid statusText")
  else match body with
       | Some _ =>
           if null_body_status status
           then Throw (TypeError
                         "Response with null body status cannot have body")
           else Normal (mkWebResponse status statusText headers body)
       | None => Normal (mkWebResponse status statusText headers body)
       end.

Module Worker.

Section Handler.

(** [yoga.fetch], the GraphQL server of graphql-yoga. *)
Variable yoga_fetch : Request -> Env -> M WebResponse.

(** The [fetch] of the default export.  Without [status] and [statusText]
    in its init, the preflight response has status 200 and an empty status
    text. *)
Definition fetch (request : Request) (env : Env) : M WebResponse :=
  if String.eqb (method request) "OPTIONS"
  then await (new_Response
                None 200 ""
                [("Access-Control-Allow-Origin", "*");
                 ("Access-Control-Allow-Methods", "GET, POST, OPTIONS");
                 ("Access-Control-Allow-Headers", "Content-Type")])
  else
    response <- yoga_fetch request env ;;
    let headers :=
      headers_set "Access-Control-Allow-Origin" "*" (web_headers response) in
    await (new_Response (web_body response) (web_status response)
                        (web_statusText response) headers).

End Handler.

End Worker.

(* ===================================================================== *)
(** ** Vocabulary of the properties *)
(* ===================================================================== *)

(** The outcome of a run with its value mapped. *)
Definition mapped {A B} (f : A -> B) (run : completion A * World)
  : completion B * World :=
  match run with
  | (Normal a, w) => (Normal (f a), w)
  | (Throw e, w) => (Throw e, w)
  end.

(** The world once [callAI] has written the two console lines that precede a
    retry: same exchanges, two more lines. *)
Definition announce_fallback (provider target : string) (w : World) : World :=
  mkWorld (trace w)
          (console w ++ [Log [AStr (provider ++ " failed, trying fallback...")];
                         Log [AStr ("Falling back to " ++ target ++ "...")]]).

(** The world once [callAI] has written the line of its [catch] block. *)
Definition announce_failure (provider : string) (w : World) : World :=
  mkWorld (trace w)
          (console w ++ [Log [AStr (provider ++ " failed, trying fallback...")]]).

(** An error body whose [error.type] is ['insufficient_quota']. *)
Definition marks_insufficient_quota (errorData : json) : bool :=
  match own errorData (Name "error") with
  | Some e => if nullish (Some e) then false
              else strict_eq_string (own e (Name "type")) "insufficient_quota"
  | None => false
  end.

(** A body whose [choices] array is empty, or whose first choice carries a
    [message] object without [content] or with a falsy one. *)
Definition content_missing (data : json) : bool :=
  match own data (Name "choices") with
  | Some (JArr []) => true
  | Some (JArr (JObj choice :: _)) =>
      match assoc "message" choice with
      | Some (JObj msg) => negb (truthy (assoc "content" msg))
      | _ => false
      end
  | _ => false
  end.

(** The model [callAI] hands to the client of the preferred provider. *)
Definition requested_model (provider : string) (env : Env)
           (model : option string) : string :=
  if String.eqb provider "deepseek"
  then or_literal model "deepseek-chat"
  else or_literal (or_else model (DEFAULT_MODEL env)) "deepseek-chat".

(** The client of the preferred provider as [callAI] calls it. *)
Definition primary_call (stringify : json -> string) (net : Net)
           (messages : list AIMessage) (env : Env) (provider : string)
           (model : option string) : M ClientResult :=
  if String.eqb provider "deepseek"
  then callDeepSeek stringify net messages (DEEPSEEK_API_KEY env)
                    (Some (requested_model provider env model))
  else callOpenAI stringify net messages (OPENAI_API_KEY env)
                  (Some (requested_model provider env model)).

(** Two credentials that the code cannot tell apart: equal, or both falsy
    (absent or the empty string). *)
Definition same_credential (a b : option string) : Prop :=
  a = b \/ (truthy_string a = false /\ truthy_string b = false).


Definition openai_key_error : error := Error "OpenAI API key is not configured".
Definition deepseek_key_error : error := Error "DeepSeek API key is not configured".

(* ===================================================================== *)
(** ** A runtime and networks for the examples *)
(* ===================================================================== *)

Definition quote : string := String (ascii_of_nat 34) EmptyString.

(** A printer standing in for [JSON.stringify] in the examples: it agrees
    with it on integers, on strings that need no escape, on arrays and on
    objects; any other number is printed as a fraction. *)
Fixpoint print_json (j : json) : string :=
  match j with
  | JNull => "null"
  | JBool true => "true"
  | JBool false => "false"
  | JNum q =>
      if Pos.eqb (Qden q) 1 then show_Z (Qnum q)
      else show_Z (Qnum q) ++ "/" ++ show_Z (Zpos (Qden q))
  | JStr s => quote ++ s ++ quote
  | JArr elems => "[" ++ String.concat "," (map print_json elems) ++ "]"
  | JObj fields =>
      "{" ++ String.concat ","
               (map (fun kv => quote ++ fst kv ++ quote ++ ":"
                                 ++ print_json (snd kv)) fields)
          ++ "}"
  end.

(** A network that answers every request with the same outcome. *)
Definition always (out : Outcome) : Net := fun _ _ => out.

(** A network that answers by endpoint. *)
Definition by_endpoint (openai deepseek : Outcome) : Net :=
  fun _ req => if String.eqb (url req) openai_url then openai else deepseek.

Definition json_response (st : Z) (body : json) : Response :=
  mkResponse st (print_json body) (Normal body).

(** A well-formed completion: one choice, usage 3 + 5 = 8 tokens. *)
Definition completion_body (answer : string) : json :=
  JObj [("id", JStr "cmpl-1");
        ("choices",
         JArr [JObj [("index", JNum 0);
                     ("message", JObj [("role", JStr "assistant");
                                       ("content", JStr answer)]);
                     ("finish_reason", JStr "stop")]]);
        ("usage", JObj [("prompt_tokens", JNum 3);
                        ("completion_tokens", JNum 5);
                        ("total_tokens", JNum 8)])].

(** A completion without [usage] and with an empty [choices] array. *)
Definition empty_body : json := JObj [("id", JStr "cmpl-2"); ("choices", JArr [])].

(** A completion whose only choice has no [message]. *)
Definition headless_body : json :=
  JObj [("choices", JArr [JObj [("index", JNum 0);
                                ("finish_reason", JStr "stop")]])].

Definition quota_body : json :=
  JObj [("error", JObj [("message", JStr "You exceeded your current quota");
                        ("type", JStr "insufficient_quota")])].

Definition unauthorized_body : json :=
  JObj [("error", JObj [("message", JStr "Incorrect API key provided");
                        ("type", JStr "invalid_request_error")])].

(** A gateway error page: not JSON. *)
Definition bad_gateway : Response :=
  mkResponse 502 "<html>502 Bad Gateway</html>"
             (Throw (mkError "SyntaxError" "Unexpected token '<'")).

(** Both providers answer every request with a completion saying "hello". *)
Definition answers_hello : Net :=
  always (Fulfilled (json_response 200 (completion_body "hello"))).

(** Both providers refuse every request with a 401. *)
Definition refuses : Net :=
  always (Fulfilled (json_response 401 unauthorized_body)).

(** OpenAI refuses with a 401, DeepSeek answers "hello". *)
Definition only_deepseek_answers : Net :=
  by_endpoint (Fulfilled (json_response 401 unauthorized_body))
              (Fulfilled (json_response 200 (completion_body "hello"))).

Definition hello_usage : value :=
  Some (JObj [("prompt_tokens", JNum 3);
              ("completion_tokens", JNum 5);
              ("total_tokens", JNum 8)]).

Definition both_keys : Env :=
  mkEnv (Some "sk-openai") (Some "sk-deepseek") None None.

Definition with_default_model (m : string) : Env :=
  mkEnv (Some "sk-openai") (Some "sk-deepseek") None (Some m).

(** The OpenAI key is the empty string; the DeepSeek key is set. *)
Definition empty_openai_key : Env :=
  mkEnv (Some "") (Some "sk-deepseek") None None.

(** The OpenAI key is absent; the DeepSeek key is set. *)
Definition absent_openai_key : Env :=
  mkEnv None (Some "sk-deepseek") None None.

(** Neither key: one absent, one empty. *)
Definition no_keys : Env := mkEnv None (Some "") None None.

Definition hi : list AIMessage := [mkMessage user "hi"].

(* ===================================================================== *)
(** ** Vocabulary and examples for the further properties *)
(* ===================================================================== *)

(** World [w'] has the exchanges of [w] and then [more]. *)
Definition adds (more : list Exchange) (w w' : World) : Prop :=
  trace w' = (trace w ++ more)%list.

(** The headers of a chat request made with key [k]. *)
Definition bearer_headers (k : string) : list (string * string) :=
  [("Content-Type", "application/json"); ("Authorization", "Bearer " ++ k)].

(** A request that goes to a provider's endpoint with that provider's own,
    non-empty key of [env]. *)
Definition authorized_for (env : Env) (req : Request) : Prop :=
  (url req = openai_url
   /\ exists k, OPENAI_API_KEY env = Some k /\ k <> ""
                /\ headers req = bearer_headers k)
  \/ (url req = deepseek_url
      /\ exists k, DEEPSEEK_API_KEY env = Some k /\ k <> ""
                   /\ headers req = bearer_headers k).

(** A completion body whose first choice has a message with the string
    content [s]. *)
Definition answers_with (data : json) (s : string) : Prop :=
  exists choice rest msg,
    own data (Name "choices") = Some (JArr (JObj choice :: rest))
    /\ assoc "message" choice = Some (JObj msg)
    /\ assoc "content" msg = Some (JStr s).

(** The world after one more exchange with the network. *)
Definition after (net : Net) (w : World) (req : Request) : World :=
  mkWorld (trace w ++ [(req, net (trace w) req)]) (console w).

(** The settled state of [fetch(url).then(r => r.json())] for an outcome. *)
Definition settled (out : Outcome) : completion json :=
  match out with
  | Fulfilled r => json_body r
  | Rejected e => Throw e
  end.

Definition is_throw {A} (c : completion A) : bool :=
  match c with
  | Throw _ => true
  | Normal _ => false
  end.

(** The messages of [pokemonInfo]. *)
Definition info_messages (name : string) : list AIMessage :=
  [mkMessage system info_persona;
   mkMessage user ("请介绍一下" ++ name ++ "这个Pokemon的特点、能力和趣事。")].

(** An entry of [types] whose [type.name] is the string [n]. *)
Definition names_type (entry : json) (n : string) : Prop :=
  exists ty, own entry (Name "type") = Some ty
             /\ own ty (Name "name") = Some (JStr n).

(** The messages of [comparePokemon] for the two names and the two lines of
    facts. *)
Definition comparison_messages (pokemon1 pokemon2 line1 line2 : string)
  : list AIMessage :=
  [mkMessage system compare_persona;
   mkMessage user
     (nl ++ spaces 16 ++ "请对比" ++ pokemon1 ++ "和" ++ pokemon2 ++ "："
         ++ nl ++ spaces 16 ++ line1
         ++ nl ++ spaces 16 ++ line2
         ++ nl ++ spaces 16
         ++ nl ++ spaces 16 ++ "请分析它们的优劣势和战斗特点。"
         ++ nl ++ spaces 14)].

(** A stand-in for the text of a number in the examples: right on
    integers. *)
Definition show_number (q : Q) : string :=
  if Pos.eqb (Qden q) 1 then show_Z (Qnum q)
  else show_Z (Qnum q) ++ "/" ++ show_Z (Zpos (Qden q)).

(** A stand-in for the URL parser of [new Request] in the examples: it
    accepts every URL and writes a space as [%20]. *)
Fixpoint escape_spaces (s : string) : string :=
  match s with
  | EmptyString => EmptyString
  | String c rest =>
      if Ascii.eqb c " "%char then "%20" ++ escape_spaces rest
      else String c (escape_spaces rest)
  end.

Definition parse_url (u : string) : completion string :=
  Normal (escape_spaces u).

(** A URL parser that accepts nothing. *)
Definition no_url (u : string) : completion string :=
  Throw (TypeError "Invalid URL").

Definition lower_ascii (c : ascii) : ascii :=
  let n := nat_of_ascii c in
  if (65 <=? n)%nat && (n <=? 90)%nat then ascii_of_nat (n + 32) else c.

(** A stand-in for [toLowerCase] in the examples: right on ASCII. *)
Fixpoint lower (s : string) : string :=
  match s with
  | EmptyString => EmptyString
  | String c rest => String (lower_ascii c) (lower rest)
  end.

(** A body of the Pokemon data source. *)
Definition pokemon_body (name : string) (height weight : Z)
           (types : list string) : json :=
  JObj [("name", JStr name);
        ("height", JNum (inject_Z height));
        ("weight", JNum (inject_Z weight));
        ("types",
         JArr (map (fun ty => JObj [("slot", JNum 1);
                                    ("type", JObj [("name", JStr ty)])])
                   types))].

Definition pikachu : json := pokemon_body "pikachu" 4 60 ["electric"].
Definition charizard : json := pokemon_body "charizard" 17 905 ["fire"; "flying"].

(** What the data source says for a name it does not know. *)
Definition not_found : Response :=
  mkResponse 404 "Not Found" (Throw (mkError "SyntaxError" "Unexpected token 'N'")).

(** The data source knows pikachu and charizard; the providers answer
    "hello". *)
Definition pokedex : Net :=
  fun _ req =>
    if String.eqb (url req) (pokeapi_url "pikachu")
    then Fulfilled (json_response 200 pikachu)
    else if String.eqb (url req) (pokeapi_url "charizard")
    then Fulfilled (json_response 200 charizard)
    else if String.eqb (url req) openai_url
    then Fulfilled (json_response 200 (completion_body "hello"))
    else if String.eqb (url req) deepseek_url
    then Fulfilled (json_response 200 (completion_body "hello"))
    else Fulfilled not_found.

(** A data source that answers an unknown name with a JSON error document:
    it knows pikachu only. *)
Definition polite_pokedex : Net :=
  fun _ req =>
    if String.eqb (url req) (pokeapi_url "pikachu")
    then Fulfilled (json_response 200 pikachu)
    else Fulfilled (json_response 404 (JObj [("detail", JStr "Not found")])).

(** A GraphQL server that answers 200 with its own origin header, twice. *)
Definition sample_yoga : Request -> Env -> M WebResponse :=
  fun _ _ =>
    ret (mkWebResponse 200 "OK"
           [("content-type", "application/json");
            ("access-control-allow-origin", "https://example.com");
            ("Access-Control-Allow-Origin", "null")]
           (Some "{}")).

(** A GraphQL server whose response has status 0, as an error response
    has. *)
Definition failed_yoga : Request -> Env -> M WebResponse :=
  fun _ _ => ret (mkWebResponse 0 "" [] None).

Definition post_request : Request :=
  mkRequest "https://worker.example/graphql" "POST"
            [("Content-Type", "application/json")] "{}".

Definition options_request : Request :=
  mkRequest "https://worker.example/graphql" "OPTIONS" [] "".

(** The network is down. *)
Definition offline : Net :=
  always (Rejected (TypeError "fetch failed")).

(** A 200 whose body is not JSON. *)
Definition garbled : Response :=
  mkResponse 200 "<html>ok</html>"
             (Throw (mkError "SyntaxError" "Unexpected token '<'")).

(* ===================================================================== *)
(** ** Properties *)
(* ===================================================================== *)

Ltac run :=
  unfold callOpenAI, callDeepSeek, try_catch, bind, when,
         await, ret, throw, fetch, console_log, console_error;
  cbn [fst snd trace console negb].

(** Unfolding the coordinator and the resolvers by name. *)
Ltac unfold_callAI := unfold callAI.
Ltac unfold_primary_call := unfold primary_call.
Ltac unfold_askAI := unfold askAI.
Ltac unfold_chatGPT := unfold chatGPT.
Ltac unfold_deepseek := unfold deepseek.
Ltac unfold_pokemon := unfold pokemon.
Ltac unfold_pokemonInfo := unfold pokemonInfo.
Ltac unfold_comparePokemon := unfold comparePokemon.
Ltac unfold_fetch_json := unfold fetch_json.
Ltac unfold_facts := unfold facts.

Section Clients.

Variable stringify : json -> string.
Variable net : Net.

Local Abbreviation callOpenAI := (callOpenAI stringify net).
Local Abbreviation callDeepSeek := (callDeepSeek stringify net).
Local Abbreviation chat_request := (chat_request stringify).

(** Reading the content is an evaluation without effect. *)
Lemma first_content_pure (data : json) :
  exists c, forall w, first_content data w = (c, w).
Proof.
  unfold first_content, bind, await, ret.
  destruct (get (Some data) (Name "choices")) as [choices|e]; [|eauto].
  destruct (get choices (Index 0)) as [first|e]; [|eauto].
  destruct (nullish first); [eauto|].
  destruct (get first (Name "message")) as [msg|e]; [|eauto].
  destruct (get msg (Name "content")) as [c|e]; eauto.
Qed.

(** Without a key the OpenAI client throws at once. *)
Lemma callOpenAI_no_key messages apiKey model w :
  truthy_string apiKey = false ->
  callOpenAI messages apiKey model w =
    (Throw openai_key_error,
     mkWorld (trace w)
             (console w ++ [Err [AStr "Error calling OpenAI:";
                                 AErr openai_key_error]])).
Proof. intros H. run. rewrite H. reflexivity. Qed.

Lemma callDeepSeek_no_key messages apiKey model w :
  truthy_string apiKey = false ->
  callDeepSeek messages apiKey model w =
    (Throw deepseek_key_error,
     mkWorld (trace w)
             (console w ++ [Err [AStr "Error calling DeepSeek:";
                                 AErr deepseek_key_error]])).
Proof. intros H. run. rewrite H. reflexivity. Qed.

(** With a key each client issues exactly one request. *)
Lemma callOpenAI_trace messages apiKey model w :
  truthy_string apiKey = true ->
  let req := chat_request openai_url apiKey
                          (default_to "gpt-3.5-turbo" model) messages in
  trace (snd (callOpenAI messages apiKey model w)) =
    (trace w ++ [(req, net (trace w) req)])%list.
Proof.
  intros H req. run. rewrite H. cbn [negb]. fold req.
  destruct (net (trace w) req) as [r|e]; [|reflexivity].
  destruct (ok r); cbn [negb].
  - destruct (json_body r) as [d|e]; [|reflexivity].
    destruct (first_content_pure d) as [c Hc]. rewrite Hc.
    destruct c; [|reflexivity].
    destruct (get (Some d) (Name "usage")); reflexivity.
  - destruct (json_body r) as [d|e]; [|reflexivity].
    destruct (get (Some d) (Name "error")) as [err|e]; [|reflexivity].
    destruct (nullish err).
    + destruct (strict_eq_string undefined "insufficient_quota"); reflexivity.
    + destruct (get err (Name "type")) as [ty|e]; [|reflexivity].
      destruct (strict_eq_string ty "insufficient_quota"); reflexivity.
Qed.

Lemma callDeepSeek_trace messages apiKey model w :
  truthy_string apiKey = true ->
  let req := chat_request deepseek_url apiKey
                          (default_to "deepseek-chat" model) messages in
  trace (snd (callDeepSeek messages apiKey model w)) =
    (trace w ++ [(req, net (trace w) req)])%list.
Proof.
  intros H req. run. rewrite H. cbn [negb trace console]. fold req.
  destruct (net (trace w) req) as [r|e]; [|reflexivity].
  destruct (ok r); cbn [negb]; [|reflexivity].
  destruct (json_body r) as [d|e]; [|reflexivity].
  destruct (first_content_pure d) as [c Hc]. rewrite Hc.
  destruct c; [|reflexivity].
  destruct (get (Some d) (Name "usage")); reflexivity.
Qed.

Lemma get_defined (j : json) (k : key) :
  j <> JNull -> get (Some j) k = Normal (own j k).
Proof. destruct j; intros H; try reflexivity. now elim H. Qed.

(** What a successful OpenAI call tells: one request went out, a 2xx
    response with a JSON body came back, and the result was read off it. *)
Lemma callOpenAI_success messages apiKey model w res w' :
  callOpenAI messages apiKey model w = (Normal res, w') ->
  let req := chat_request openai_url apiKey
                          (default_to "gpt-3.5-turbo" model) messages in
  exists r d,
    net (trace w) req = Fulfilled r /\ ok r = true /\ json_body r = Normal d
    /\ trace w' = (trace w ++ [(req, Fulfilled r)])%list
    /\ cr_usage res = own d (Name "usage")
    /\ fst (first_content d w) = Normal (cr_content res).
Proof.
  intros H req. revert H. run.
  destruct (truthy_string apiKey); cbn [negb]; [|discriminate].
  fold req. destruct (net (trace w) req) as [r|e] eqn:Hnet; [|discriminate].
  destruct (ok r) eqn:Hok; cbn [negb].
  - destruct (json_body r) as [d|e] eqn:Hd; [|discriminate].
    destruct (first_content_pure d) as [c Hc]. rewrite !Hc.
    destruct c as [c|e]; [|discriminate].
    destruct d; cbn [get];
      try (intros [= <- <-]; exists r; eexists; repeat split;
           try eassumption; try reflexivity; rewrite Hc; reflexivity).
  - destruct (json_body r) as [d|e]; [|discriminate].
    destruct (get (Some d) (Name "error")) as [err|e]; [|discriminate].
    destruct (nullish err).
    + destruct (strict_eq_string undefined "insufficient_quota"); discriminate.
    + destruct (get err (Name "type")) as [ty|e]; [|discriminate].
      destruct (strict_eq_string ty "insufficient_quota"); discriminate.
Qed.

Lemma callDeepSeek_success messages apiKey model w res w' :
  callDeepSeek messages apiKey model w = (Normal res, w') ->
  let req := chat_request deepseek_url apiKey
                          (default_to "deepseek-chat" model) messages in
  exists r d,
    net (trace w) req = Fulfilled r /\ ok r = true /\ json_body r = Normal d
    /\ trace w' = (trace w ++ [(req, Fulfilled r)])%list
    /\ cr_usage res = own d (Name "usage")
    /\ fst (first_content d w) = Normal (cr_content res).
Proof.
  intros H req. revert H. run.
  destruct (truthy_string apiKey); cbn [negb trace console]; [|discriminate].
  fold req. destruct (net (trace w) req) as [r|e] eqn:Hnet; [|discriminate].
  destruct (ok r) eqn:Hok; cbn [negb]; [|discriminate].
  destruct (json_body r) as [d|e] eqn:Hd; [|discriminate].
  destruct (first_content_pure d) as [c Hc]. rewrite !Hc.
  destruct c as [c|e]; [|discriminate].
  destruct d; cbn [get];
    try (intros [= <- <-]; exists r; eexists; repeat split;
         try eassumption; try reflexivity; rewrite Hc; reflexivity).
Qed.

(** A body without content reads as the literal. *)
Lemma first_content_missing (data : json) w :
  content_missing data = true ->
  first_content data w = (Normal (JStr "No response"), w)
  /\ get (Some data) (Name "usage") = Normal (own data (Name "usage")).
Proof.
  unfold content_missing. intros H.
  assert (Hnn : data <> JNull) by (intros ->; discriminate H).
  split; [|now apply get_defined].
  unfold first_content, bind, await, ret.
  rewrite (get_defined data _ Hnn).
  destruct (own data (Name "choices")) as [[| | | |[|first rest]|]|];
    try discriminate H; [reflexivity|].
  destruct first as [| | | | |choice]; try discriminate H.
  cbn [get own nth_error nullish key_text].
  destruct (assoc "message" choice) as [[| | | | |msg]|]; try discriminate H.
  cbn [get own key_text].
  destruct (assoc "content" msg) as [c|]; [|reflexivity].
  cbn [or_string]. apply negb_true_iff in H. rewrite H. reflexivity.
Qed.

(** A 2xx response with readable content makes the call succeed. *)
Lemma callOpenAI_ok messages apiKey model w r d c :
  truthy_string apiKey = true ->
  net (trace w) (chat_request openai_url apiKey
                              (default_to "gpt-3.5-turbo" model) messages)
    = Fulfilled r ->
  ok r = true ->
  json_body r = Normal d ->
  fst (first_content d w) = Normal c ->
  fst (callOpenAI messages apiKey model w)
    = Normal (mkClientResult c (own d (Name "usage"))).
Proof.
  intros Hkey Hnet Hok Hd Hc. run. rewrite Hkey. cbn [negb].
  rewrite Hnet, Hok. cbn [negb]. rewrite Hd.
  destruct (first_content_pure d) as [c' Hc']. rewrite Hc' in *.
  cbn [fst] in Hc. subst c'.
  rewrite get_defined; [reflexivity|].
  intros ->. specialize (Hc' w). discriminate Hc'.
Qed.

Lemma callDeepSeek_ok messages apiKey model w r d c :
  truthy_string apiKey = true ->
  net (trace w) (chat_request deepseek_url apiKey
                              (default_to "deepseek-chat" model) messages)
    = Fulfilled r ->
  ok r = true ->
  json_body r = Normal d ->
  fst (first_content d w) = Normal c ->
  fst (callDeepSeek messages apiKey model w)
    = Normal (mkClientResult c (own d (Name "usage"))).
Proof.
  intros Hkey Hnet Hok Hd Hc. run. rewrite Hkey. cbn [negb trace console].
  rewrite Hnet, Hok. cbn [negb]. rewrite Hd.
  destruct (first_content_pure d) as [c' Hc']. rewrite Hc' in *.
  cbn [fst] in Hc. subst c'.
  rewrite get_defined; [reflexivity|].
  intros ->. specialize (Hc' w). discriminate Hc'.
Qed.

(** A client issues at most one request. *)
Lemma callOpenAI_at_most_one messages apiKey model w :
  (length (trace (snd (callOpenAI messages apiKey model w)))
   <= length (trace w) + 1)%nat.
Proof.
  destruct (truthy_string apiKey) eqn:Hkey.
  - rewrite callOpenAI_trace by assumption. rewrite length_app. simpl. lia.
  - rewrite callOpenAI_no_key by assumption. simpl. lia.
Qed.

Lemma callDeepSeek_at_most_one messages apiKey model w :
  (length (trace (snd (callDeepSeek messages apiKey model w)))
   <= length (trace w) + 1)%nat.
Proof.
  destruct (truthy_string apiKey) eqn:Hkey.
  - rewrite callDeepSeek_trace by assumption. rewrite length_app. simpl. lia.
  - rewrite callDeepSeek_no_key by assumption. simpl. lia.
Qed.

(** A client only adds to the trace. *)
Lemma callOpenAI_extends messages apiKey model w :
  exists more,
    trace (snd (callOpenAI messages apiKey model w)) = (trace w ++ more)%list.
Proof.
  destruct (truthy_string apiKey) eqn:Hkey.
  - rewrite callOpenAI_trace by assumption. eauto.
  - rewrite callOpenAI_no_key by assumption. exists []. simpl.
    now rewrite app_nil_r.
Qed.

Lemma callDeepSeek_extends messages apiKey model w :
  exists more,
    trace (snd (callDeepSeek messages apiKey model w)) = (trace w ++ more)%list.
Proof.
  destruct (truthy_string apiKey) eqn:Hkey.
  - rewrite callDeepSeek_trace by assumption. eauto.
  - rewrite callDeepSeek_no_key by assumption. exists []. simpl.
    now rewrite app_nil_r.
Qed.

(** C7: a client called with an empty API key throws its missing-credential
    error at once and issues no HTTP request, whatever the messages and the
    model. *)
Theorem empty_key_fails_before_any_request messages model w :
  fst (callOpenAI messages (Some "") model w)
    = Throw (Error "OpenAI API key is not configured")
  /\ trace (snd (callOpenAI messages (Some "") model w)) = trace w
  /\ fst (callDeepSeek messages (Some "") model w)
    = Throw (Error "DeepSeek API key is not configured")
  /\ trace (snd (callDeepSeek messages (Some "") model w)) = trace w.
Proof.
  rewrite callOpenAI_no_key, callDeepSeek_no_key by reflexivity.
  repeat split.
Qed.

(** C5 (amended): on a non-2xx response the OpenAI client reads the body as
    JSON; if that gives a value other than [null] it throws the quota error
    when [error.type] is ['insufficient_quota'] and the generic error with
    the status and the serialised body otherwise; if the body is not JSON
    the error of reading it is what the client throws, and on [null] a
    TypeError.  The DeepSeek client throws the generic error with the status
    and the body text whatever the body is. *)
Theorem upstream_failure_classification messages apiKey model w r :
  truthy_string apiKey = true ->
  ok r = false ->
  (net (trace w) (chat_request openai_url apiKey
                               (default_to "gpt-3.5-turbo" model) messages)
     = Fulfilled r ->
   (forall d, json_body r = Normal d -> d <> JNull ->
      fst (callOpenAI messages apiKey model w)
        = Throw (if marks_insufficient_quota d
                 then Error quota_message
                 else Error ("OpenAI API error: " ++ show_Z (status r)
                               ++ " " ++ stringify d)))
   /\ (forall e, json_body r = Throw e ->
         fst (callOpenAI messages apiKey model w) = Throw e)
   /\ (json_body r = Normal JNull ->
         exists msg,
           fst (callOpenAI messages apiKey model w) = Throw (TypeError msg)))
  /\ (net (trace w) (chat_request deepseek_url apiKey
                                  (default_to "deepseek-chat" model) messages)
        = Fulfilled r ->
      fst (callDeepSeek messages apiKey model w)
        = Throw (Error ("DeepSeek API error: " ++ show_Z (status r)
                          ++ " " ++ text r))).
Proof.
  intros Hkey Hok. split.
  - intros Hnet. repeat split.
    + intros d Hd Hnn. run. rewrite Hkey. cbn [negb]. rewrite Hnet, Hok.
      cbn [negb]. rewrite Hd, (get_defined d _ Hnn).
      unfold marks_insufficient_quota.
      destruct (own d (Name "error")) as [err|]; [|reflexivity].
      destruct (nullish (Some err)) eqn:Hn; [reflexivity|].
      rewrite get_defined by (intros ->; discriminate Hn).
      destruct (strict_eq_string _ _); reflexivity.
    + intros e He. run. rewrite Hkey. cbn [negb]. rewrite Hnet, Hok.
      cbn [negb]. rewrite He. reflexivity.
    + intros Hd. run. rewrite Hkey. cbn [negb]. rewrite Hnet, Hok.
      cbn [negb]. rewrite Hd. eexists. reflexivity.
  - intros Hnet. run. rewrite Hkey. cbn [negb trace console].
    rewrite Hnet, Hok. reflexivity.
Qed.

(** C6 (amended): on a 2xx response whose JSON body has an empty [choices]
    array, or a first choice whose [message] object has no [content] or a
    falsy one, each client returns normally with the content
    ['No response'] and the body's [usage]. *)
Theorem missing_content_reads_no_response messages apiKey model w r d :
  truthy_string apiKey = true ->
  ok r = true ->
  json_body r = Normal d ->
  content_missing d = true ->
  (net (trace w) (chat_request openai_url apiKey
                               (default_to "gpt-3.5-turbo" model) messages)
     = Fulfilled r ->
   fst (callOpenAI messages apiKey model w)
     = Normal (mkClientResult (JStr "No response") (own d (Name "usage"))))
  /\ (net (trace w) (chat_request deepseek_url apiKey
                                  (default_to "deepseek-chat" model) messages)
        = Fulfilled r ->
      fst (callDeepSeek messages apiKey model w)
        = Normal (mkClientResult (JStr "No response") (own d (Name "usage")))).
Proof.
  intros Hkey Hok Hd Hmiss.
  split; intros Hnet; run; rewrite Hkey; cbn [negb trace console];
    rewrite Hnet, Hok; cbn [negb]; rewrite Hd;
    match goal with
    | |- context [first_content d ?w0] =>
        destruct (first_content_missing d w0 Hmiss) as [-> ->]
    end; reflexivity.
Qed.

End Clients.

Section Coordinator.

Variable stringify : json -> string.
Variable net : Net.

Local Abbreviation callOpenAI := (callOpenAI stringify net).
Local Abbreviation callDeepSeek := (callDeepSeek stringify net).
Local Abbreviation callAI := (callAI stringify net).
Local Abbreviation askAI := (askAI stringify net).
Local Abbreviation chatGPT := (chatGPT stringify net).
Local Abbreviation deepseek := (deepseek stringify net).
Local Abbreviation chat_request := (chat_request stringify).
Local Abbreviation primary_call := (primary_call stringify net).

(** [callAI] by cases on how the preferred provider's client ends. *)
Lemma callAI_cases messages env provider model w :
  let p := default_to "openai" provider in
  callAI messages env provider model w =
    match primary_call messages env p model w with
    | (Normal result, w1) => (Normal (with_provider p result), w1)
    | (Throw error, w1) =>
        if String.eqb p "openai" && truthy_string (DEEPSEEK_API_KEY env)
        then mapped (with_provider "deepseek")
                    (callDeepSeek messages (DEEPSEEK_API_KEY env)
                                  (Some "deepseek-chat")
                                  (announce_fallback p "DeepSeek" w1))
        else if String.eqb p "deepseek" && truthy_string (OPENAI_API_KEY env)
        then mapped (with_provider "openai")
                    (callOpenAI messages (OPENAI_API_KEY env)
                                (Some "gpt-3.5-turbo")
                                (announce_fallback p "OpenAI" w1))
        else (Throw error, announce_failure p w1)
    end.
Proof.
  intros p. unfold_callAI. unfold_primary_call. unfold requested_model.
  fold p. unfold try_catch at 1. unfold bind at 1.
  destruct (String.eqb p "deepseek") eqn:Hp.
  - match goal with |- context [callDeepSeek ?m ?k ?md w] =>
      destruct (callDeepSeek m k md w) as [[result|error] w1]
    end; [reflexivity|].
    unfold bind at 1, console_log at 1.
    destruct (String.eqb p "openai" && truthy_string (DEEPSEEK_API_KEY env)).
    + unfold bind, console_log, mapped, announce_fallback, ret.
      cbn [trace console String.append]. rewrite <- app_assoc. cbn [app].
      match goal with |- context [callDeepSeek ?m ?k ?md ?w0] =>
        destruct (callDeepSeek m k md w0) as [[r|e] w2]
      end; reflexivity.
    + cbn [andb]. destruct (truthy_string (OPENAI_API_KEY env)).
      * unfold bind, console_log, mapped, announce_fallback, ret.
        cbn [trace console String.append]. rewrite <- app_assoc. cbn [app].
        match goal with |- context [callOpenAI ?m ?k ?md ?w0] =>
          destruct (callOpenAI m k md w0) as [[r|e] w2]
        end; reflexivity.
      * reflexivity.
  - match goal with |- context [callOpenAI ?m ?k ?md w] =>
      destruct (callOpenAI m k md w) as [[result|error] w1]
    end; [reflexivity|].
    unfold bind at 1, console_log at 1.
    destruct (String.eqb p "openai" && truthy_string (DEEPSEEK_API_KEY env)).
    + unfold bind, console_log, mapped, announce_fallback, ret.
      cbn [trace console String.append]. rewrite <- app_assoc. cbn [app].
      match goal with |- context [callDeepSeek ?m ?k ?md ?w0] =>
        destruct (callDeepSeek m k md w0) as [[r|e] w2]
      end; reflexivity.
    + cbn [andb]. reflexivity.
Qed.

Lemma mapped_snd {A B} (f : A -> B) (run : completion A * World) :
  snd (mapped f run) = snd run.
Proof. destruct run as [[a|e] w]; reflexivity. Qed.

Lemma mapped_throw {A B} (f : A -> B) (run : completion A * World) e w :
  run = (Throw e, w) -> mapped f run = (Throw e, w).
Proof. intros ->. reflexivity. Qed.

(** [askAI] by cases on how [callAI] ends. *)
Lemma askAI_cases prompt provider model env w :
  let p := default_to "openai" provider in
  askAI prompt provider model env w =
    match callAI [mkMessage user prompt] env (Some p) model w with
    | (Normal result, w1) =>
        (Normal (mkAIResponse
                   (ar_content result)
                   (or_literal model (if String.eqb p "deepseek"
                                      then "deepseek-chat"
                                      else "gpt-3.5-turbo"))
                   (ar_provider result)
                   (usage_or_zeros (ar_usage result))), w1)
    | (Throw error, w1) =>
        (Throw (Error ("AI query failed: " ++ message error)), w1)
    end.
Proof.
  intros p. unfold_askAI. fold p. unfold try_catch, bind, ret, throw.
  destruct (callAI [mkMessage user prompt] env (Some p) model w)
    as [[result|error] w1]; reflexivity.
Qed.

(** [callAI] once the OpenAI client, called first, has failed. *)
Lemma callAI_openai_failed messages env provider model w e w1 :
  default_to "openai" provider = "openai" ->
  callOpenAI messages (OPENAI_API_KEY env)
             (Some (requested_model "openai" env model)) w = (Throw e, w1) ->
  callAI messages env provider model w =
    if truthy_string (DEEPSEEK_API_KEY env)
    then mapped (with_provider "deepseek")
                (callDeepSeek messages (DEEPSEEK_API_KEY env)
                              (Some "deepseek-chat")
                              (announce_fallback "openai" "DeepSeek" w1))
    else (Throw e, announce_failure "openai" w1).
Proof.
  intros Hp Hfail. rewrite callAI_cases, Hp.
  unfold_primary_call. cbn [String.eqb Ascii.eqb Bool.eqb].
  rewrite Hfail. destruct (truthy_string (DEEPSEEK_API_KEY env)); reflexivity.
Qed.

(** [callAI] once the DeepSeek client, called first, has failed. *)
Lemma callAI_deepseek_failed messages env model w e w1 :
  callDeepSeek messages (DEEPSEEK_API_KEY env)
               (Some (requested_model "deepseek" env model)) w
    = (Throw e, w1) ->
  callAI messages env (Some "deepseek") model w =
    if truthy_string (OPENAI_API_KEY env)
    then mapped (with_provider "openai")
                (callOpenAI messages (OPENAI_API_KEY env)
                            (Some "gpt-3.5-turbo")
                            (announce_fallback "deepseek" "OpenAI" w1))
    else (Throw e, announce_failure "deepseek" w1).
Proof.
  intros Hfail. rewrite callAI_cases. cbn [default_to].
  unfold_primary_call. cbn [String.eqb Ascii.eqb Bool.eqb].
  rewrite Hfail. destruct (truthy_string (OPENAI_API_KEY env)); reflexivity.
Qed.

(** C1: when the client of the preferred provider fails and the other
    provider's credential is configured, [callAI] calls the other client
    once, with that provider's model (['deepseek-chat'] for DeepSeek,
    ['gpt-3.5-turbo'] for OpenAI) whatever the model override, and returns
    the content and usage that call returns with the [provider] field set to
    the other provider's name, ['deepseek'] or ['openai']; when the other
    credential is not configured, the failure of the first call is thrown
    again and nothing more is requested; the last part says the same for
    any provider name: whenever neither condition of the [catch] block
    holds, the first error is the outcome. *)
Theorem failed_primary_falls_back_once messages env provider model w e w1 :
  (default_to "openai" provider = "openai" ->
   callOpenAI messages (OPENAI_API_KEY env)
              (Some (requested_model "openai" env model)) w = (Throw e, w1) ->
   (truthy_string (DEEPSEEK_API_KEY env) = true ->
    callAI messages env provider model w
      = mapped (fun r => mkAIResult (cr_content r) (cr_usage r) "deepseek")
               (callDeepSeek messages (DEEPSEEK_API_KEY env)
                             (Some "deepseek-chat")
                             (announce_fallback "openai" "DeepSeek" w1))
    /\ (forall res w2,
          callAI messages env provider model w = (Normal res, w2) ->
          ar_provider res = "deepseek")
    /\ requests (snd (callAI messages env provider model w))
       = (requests w1
            ++ [chat_request deepseek_url (DEEPSEEK_API_KEY env)
                             "deepseek-chat" messages])%list)
   /\ (truthy_string (DEEPSEEK_API_KEY env) = false ->
       fst (callAI messages env provider model w) = Throw e
       /\ trace (snd (callAI messages env provider model w)) = trace w1))
  /\
  (provider = Some "deepseek" ->
   callDeepSeek messages (DEEPSEEK_API_KEY env)
                (Some (requested_model "deepseek" env model)) w = (Throw e, w1) ->
   (truthy_string (OPENAI_API_KEY env) = true ->
    callAI messages env provider model w
      = mapped (fun r => mkAIResult (cr_content r) (cr_usage r) "openai")
               (callOpenAI messages (OPENAI_API_KEY env)
                           (Some "gpt-3.5-turbo")
                           (announce_fallback "deepseek" "OpenAI" w1))
    /\ (forall res w2,
          callAI messages env provider model w = (Normal res, w2) ->
          ar_provider res = "openai")
    /\ requests (snd (callAI messages env provider model w))
       = (requests w1
            ++ [chat_request openai_url (OPENAI_API_KEY env)
                             "gpt-3.5-turbo" messages])%list)
   /\ (truthy_string (OPENAI_API_KEY env) = false ->
       fst (callAI messages env provider model w) = Throw e
       /\ trace (snd (callAI messages env provider model w)) = trace w1))
  /\
  (let p := default_to "openai" provider in
   primary_call messages env p model w = (Throw e, w1) ->
   String.eqb p "openai" && truthy_string (DEEPSEEK_API_KEY env) = false ->
   String.eqb p "deepseek" && truthy_string (OPENAI_API_KEY env) = false ->
   fst (callAI messages env provider model w) = Throw e
   /\ trace (snd (callAI messages env provider model w)) = trace w1).
Proof.
  split; [|split].
  - intros Hp Hfail.
    rewrite (callAI_openai_failed _ _ _ _ _ _ _ Hp Hfail).
    split; intros Hkey; rewrite Hkey.
    + split; [reflexivity|]. split.
      * intros res w2.
        destruct (callDeepSeek _ _ _ _) as [[r|e2] w3]; cbn [mapped];
          [|discriminate].
        intros [= <- _]. reflexivity.
      * rewrite mapped_snd. unfold requests.
        rewrite callDeepSeek_trace by assumption.
        rewrite map_app. reflexivity.
    + split; reflexivity.
  - intros -> Hfail.
    rewrite (callAI_deepseek_failed _ _ _ _ _ _ Hfail).
    split; intros Hkey; rewrite Hkey.
    + split; [reflexivity|]. split.
      * intros res w2.
        destruct (callOpenAI _ _ _ _) as [[r|e2] w3]; cbn [mapped];
          [|discriminate].
        intros [= <- _]. reflexivity.
      * rewrite mapped_snd. unfold requests.
        rewrite callOpenAI_trace by assumption.
        rewrite map_app. reflexivity.
    + split; reflexivity.
  - intros p Hfail Hno_deepseek Hno_openai.
    rewrite callAI_cases. fold p.
    rewrite Hfail, Hno_deepseek, Hno_openai. split; reflexivity.
Qed.

(** The client of the preferred provider only adds to the trace. *)
Lemma primary_call_extends messages env p model w :
  exists more,
    trace (snd (primary_call messages env p model w))
      = (trace w ++ more)%list.
Proof.
  unfold_primary_call. destruct (String.eqb p "deepseek").
  - apply callDeepSeek_extends.
  - apply callOpenAI_extends.
Qed.

Lemma primary_call_at_most_one messages env p model w :
  (length (trace (snd (primary_call messages env p model w)))
   <= length (trace w) + 1)%nat.
Proof.
  unfold_primary_call. destruct (String.eqb p "deepseek").
  - apply callDeepSeek_at_most_one.
  - apply callOpenAI_at_most_one.
Qed.

(** [callAI] keeps what the first call put on the trace. *)
Lemma callAI_extends_primary messages env provider model w :
  exists more,
    trace (snd (callAI messages env provider model w))
      = (trace (snd (primary_call messages env
                                  (default_to "openai" provider) model w))
           ++ more)%list.
Proof.
  rewrite callAI_cases.
  destruct (primary_call _ _ _ _ w) as [[result|error] w1]; cbn [snd].
  - exists []. now rewrite app_nil_r.
  - destruct (_ && _).
    + rewrite mapped_snd.
      edestruct callDeepSeek_extends as [more Hm].
      exists more. rewrite Hm. reflexivity.
    + destruct (_ && _).
      * rewrite mapped_snd.
        edestruct callOpenAI_extends as [more Hm].
        exists more. rewrite Hm. reflexivity.
      * exists []. cbn. now rewrite app_nil_r.
Qed.

(** C2: on the path of [callAI] that calls the OpenAI client, the model in
    the request is the override when one is given (and not empty), else the
    configured [DEFAULT_MODEL] when it is set (and not empty), else
    ['deepseek-chat']. *)
Theorem openai_path_model messages env provider model w :
  String.eqb (default_to "openai" provider) "deepseek" = false ->
  truthy_string (OPENAI_API_KEY env) = true ->
  let sent m :=
    nth_error (requests (snd (callAI messages env provider model w)))
              (length (trace w))
      = Some (chat_request openai_url (OPENAI_API_KEY env) m messages) in
  (forall m, model = Some m -> m <> "" -> sent m)
  /\ (truthy_string model = false ->
      forall d, DEFAULT_MODEL env = Some d -> d <> "" -> sent d)
  /\ (truthy_string model = false ->
      truthy_string (DEFAULT_MODEL env) = false -> sent "deepseek-chat").
Proof.
  intros Hp Hkey sent.
  assert (Hsent : sent (requested_model (default_to "openai" provider)
                                        env model)).
  { unfold sent, requests.
    destruct (callAI_extends_primary messages env provider model w)
      as [more ->].
    unfold_primary_call. rewrite Hp.
    rewrite callOpenAI_trace by assumption. cbn [default_to].
    rewrite <- app_assoc, map_app, nth_error_app2; rewrite length_map;
      [|lia].
    now rewrite Nat.sub_diag. }
  unfold requested_model in Hsent. rewrite Hp in Hsent.
  repeat split.
  - intros m -> Hm. apply String.eqb_neq in Hm.
    unfold or_else, or_literal, truthy_string in Hsent.
    rewrite Hm in Hsent. cbn [negb] in Hsent. rewrite Hm in Hsent. exact Hsent.
  - intros Hmodel d Hd Hne. apply String.eqb_neq in Hne.
    unfold or_else in Hsent. rewrite Hmodel, Hd in Hsent.
    unfold or_literal, truthy_string in Hsent.
    rewrite Hne in Hsent. exact Hsent.
  - intros Hmodel Hdef. unfold or_else in Hsent. rewrite Hmodel in Hsent.
    unfold or_literal in Hsent. rewrite Hdef in Hsent.
    destruct (DEFAULT_MODEL env); exact Hsent.
Qed.

(** C4: [callAI] issues at most two requests, one by the first client and
    one by the fallback; when the fallback client fails, its error is the
    outcome of [callAI] and the world is the one that client left: nothing
    is tried after it. *)
Theorem at_most_one_fallback messages env provider model w :
  (length (trace (snd (callAI messages env provider model w)))
   <= length (trace w) + 2)%nat
  /\ (forall e w1 e2 w2,
        default_to "openai" provider = "openai" ->
        callOpenAI messages (OPENAI_API_KEY env)
                   (Some (requested_model "openai" env model)) w
          = (Throw e, w1) ->
        truthy_string (DEEPSEEK_API_KEY env) = true ->
        callDeepSeek messages (DEEPSEEK_API_KEY env) (Some "deepseek-chat")
                     (announce_fallback "openai" "DeepSeek" w1)
          = (Throw e2, w2) ->
        callAI messages env provider model w = (Throw e2, w2)
        /\ (length (trace w2) <= length (trace w1) + 1)%nat)
  /\ (forall e w1 e2 w2,
        provider = Some "deepseek" ->
        callDeepSeek messages (DEEPSEEK_API_KEY env)
                     (Some (requested_model "deepseek" env model)) w
          = (Throw e, w1) ->
        truthy_string (OPENAI_API_KEY env) = true ->
        callOpenAI messages (OPENAI_API_KEY env) (Some "gpt-3.5-turbo")
                   (announce_fallback "deepseek" "OpenAI" w1)
          = (Throw e2, w2) ->
        callAI messages env provider model w = (Throw e2, w2)
        /\ (length (trace w2) <= length (trace w1) + 1)%nat).
Proof.
  split; [|split].
  - rewrite callAI_cases.
    pose proof (primary_call_at_most_one
                  messages env (default_to "openai" provider) model w) as H1.
    destruct (primary_call _ _ _ _ w) as [[result|error] w1];
      cbn [snd] in *; [lia|].
    destruct (_ && _).
    + rewrite mapped_snd.
      pose proof (callDeepSeek_at_most_one stringify net
                    messages (DEEPSEEK_API_KEY env) (Some "deepseek-chat")
                    (announce_fallback (default_to "openai" provider)
                                       "DeepSeek" w1)) as H2.
      cbn [announce_fallback trace] in H2. lia.
    + destruct (_ && _).
      * rewrite mapped_snd.
        pose proof (callOpenAI_at_most_one stringify net
                      messages (OPENAI_API_KEY env) (Some "gpt-3.5-turbo")
                      (announce_fallback (default_to "openai" provider)
                                         "OpenAI" w1)) as H2.
        cbn [announce_fallback trace] in H2. lia.
      * cbn. lia.
  - intros e w1 e2 w2 Hp Hfirst Hkey Hsecond. split.
    + rewrite (callAI_openai_failed _ _ _ _ _ _ _ Hp Hfirst), Hkey.
      now apply mapped_throw.
    + pose proof (callDeepSeek_at_most_one stringify net
                    messages (DEEPSEEK_API_KEY env) (Some "deepseek-chat")
                    (announce_fallback "openai" "DeepSeek" w1)) as Hle.
      rewrite Hsecond in Hle. exact Hle.
  - intros e w1 e2 w2 -> Hfirst Hkey Hsecond. split.
    + rewrite (callAI_deepseek_failed _ _ _ _ _ _ Hfirst), Hkey.
      now apply mapped_throw.
    + pose proof (callOpenAI_at_most_one stringify net
                    messages (OPENAI_API_KEY env) (Some "gpt-3.5-turbo")
                    (announce_fallback "deepseek" "OpenAI" w1)) as Hle.
      rewrite Hsecond in Hle. exact Hle.
Qed.

(** C8: with neither credential configured, [callAI] and [askAI] end with
    the missing-credential error of the preferred provider's client (in
    [askAI] behind the prefix of its [catch] block); no fallback is tried
    and no request is issued. *)
Theorem no_credentials_no_request messages prompt env provider model w :
  truthy_string (OPENAI_API_KEY env) = false ->
  truthy_string (DEEPSEEK_API_KEY env) = false ->
  let missing :=
    if String.eqb (default_to "openai" provider) "deepseek"
    then Error "DeepSeek API key is not configured"
    else Error "OpenAI API key is not configured" in
  fst (callAI messages env provider model w) = Throw missing
  /\ trace (snd (callAI messages env provider model w)) = trace w
  /\ fst (askAI prompt provider model env w)
     = Throw (Error ("AI query failed: " ++ message missing))
  /\ trace (snd (askAI prompt provider model env w)) = trace w.
Proof.
  intros Ho Hd missing.
  assert (Hcall : forall msgs p,
             callAI msgs env (Some p) model w
             = (Throw (if String.eqb p "deepseek"
                       then deepseek_key_error else openai_key_error),
                announce_failure p
                  (mkWorld (trace w)
                     (console w ++
                        [Err [AStr (if String.eqb p "deepseek"
                                    then "Error calling DeepSeek:"
                                    else "Error calling OpenAI:");
                              AErr (if String.eqb p "deepseek"
                                    then deepseek_key_error
                                    else openai_key_error)]])))).
  { intros msgs p. rewrite callAI_cases. cbn [default_to].
    unfold_primary_call. rewrite Ho, Hd, !andb_false_r.
    destruct (String.eqb p "deepseek").
    - now rewrite callDeepSeek_no_key.
    - now rewrite callOpenAI_no_key. }
  assert (Hdef : forall msgs, callAI msgs env provider model w
                   = callAI msgs env (Some (default_to "openai" provider))
                            model w)
    by (intros; destruct provider; reflexivity).
  rewrite askAI_cases, Hdef, !Hcall. cbn [fst snd].
  subst missing. unfold deepseek_key_error, openai_key_error.
  destruct (String.eqb (default_to "openai" provider) "deepseek");
    repeat split.
Qed.



Lemma same_credential_truthy a b :
  same_credential a b -> truthy_string a = truthy_string b.
Proof. intros [->|[-> ->]]; reflexivity. Qed.

Lemma same_credential_openai messages a b model w :
  same_credential a b ->
  callOpenAI messages a model w = callOpenAI messages b model w.
Proof.
  intros [->|[Ha Hb]]; [reflexivity|].
  now rewrite !callOpenAI_no_key.
Qed.

Lemma same_credential_deepseek messages a b model w :
  same_credential a b ->
  callDeepSeek messages a model w = callDeepSeek messages b model w.
Proof.
  intros [->|[Ha Hb]]; [reflexivity|].
  now rewrite !callDeepSeek_no_key.
Qed.

(** C10: the code cannot tell an empty-string credential from an absent
    one.  Each client throws the same error for both; [callAI] behaves the
    same under two configurations whose credentials differ only in that;
    with a falsy OpenAI key and a DeepSeek key, [callAI] preferring OpenAI
    issues the one DeepSeek request and returns its answer as provider
    ['deepseek']; with both keys falsy it throws the OpenAI client's
    missing-credential error and requests nothing. *)
Theorem empty_credential_is_absent_credential
        messages env env' provider model w :
  callOpenAI messages (Some "") model w = callOpenAI messages None model w
  /\ callDeepSeek messages (Some "") model w
     = callDeepSeek messages None model w
  /\ (same_credential (OPENAI_API_KEY env) (OPENAI_API_KEY env') ->
      same_credential (DEEPSEEK_API_KEY env) (DEEPSEEK_API_KEY env') ->
      DEFAULT_MODEL env = DEFAULT_MODEL env' ->
      callAI messages env provider model w
      = callAI messages env' provider model w)
  /\ (default_to "openai" provider = "openai" ->
      truthy_string (OPENAI_API_KEY env) = false ->
      truthy_string (DEEPSEEK_API_KEY env) = true ->
      let req := chat_request deepseek_url (DEEPSEEK_API_KEY env)
                              "deepseek-chat" messages in
      requests (snd (callAI messages env provider model w))
        = (requests w ++ [req])%list
      /\ (forall r d c,
            net (trace w) req = Fulfilled r ->
            ok r = true ->
            json_body r = Normal d ->
            fst (first_content d w) = Normal c ->
            fst (callAI messages env provider model w)
              = Normal (mkAIResult c (own d (Name "usage")) "deepseek")))
  /\ (default_to "openai" provider = "openai" ->
      truthy_string (OPENAI_API_KEY env) = false ->
      truthy_string (DEEPSEEK_API_KEY env) = false ->
      fst (callAI messages env provider model w)
        = Throw (Error "OpenAI API key is not configured")
      /\ trace (snd (callAI messages env provider model w)) = trace w).
Proof.
  split; [now rewrite !callOpenAI_no_key|].
  split; [now rewrite !callDeepSeek_no_key|].
  split; [|split].
  - intros Ho Hd Hm. rewrite !callAI_cases.
    unfold_primary_call. unfold requested_model. rewrite <- Hm.
    rewrite <- (same_credential_truthy _ _ Ho),
            <- (same_credential_truthy _ _ Hd).
    destruct (String.eqb (default_to "openai" provider) "deepseek").
    + rewrite <- (same_credential_deepseek _ _ _ _ _ Hd).
      destruct (callDeepSeek _ _ _ w) as [[cr|e] w1]; [reflexivity|].
      destruct (_ && _);
        [now rewrite <- (same_credential_deepseek _ _ _ _ _ Hd)|].
      destruct (_ && _);
        [now rewrite <- (same_credential_openai _ _ _ _ _ Ho)|reflexivity].
    + rewrite <- (same_credential_openai _ _ _ _ _ Ho).
      destruct (callOpenAI _ _ _ w) as [[cr|e] w1]; [reflexivity|].
      destruct (_ && _);
        [now rewrite <- (same_credential_deepseek _ _ _ _ _ Hd)|].
      destruct (_ && _);
        [now rewrite <- (same_credential_openai _ _ _ _ _ Ho)|reflexivity].
  - intros Hp Ho Hd req.
    rewrite (callAI_openai_failed _ _ _ _ _ _ _ Hp
               (callOpenAI_no_key _ _ _ _ _ _ Ho)), Hd.
    split.
    + rewrite mapped_snd. unfold requests.
      rewrite callDeepSeek_trace by assumption.
      rewrite map_app. reflexivity.
    + intros r d c Hnet Hok Hbody Hc.
      pose proof (callDeepSeek_ok stringify net messages
                    (DEEPSEEK_API_KEY env) (Some "deepseek-chat")
                    (announce_fallback "openai" "DeepSeek"
                       (mkWorld (trace w)
                          (console w ++
                             [Err [AStr "Error calling OpenAI:";
                                   AErr openai_key_error]])))
                    r d c Hd Hnet Hok Hbody) as Hrun.
      destruct (first_content_pure d) as [c' Hc'].
      rewrite Hc' in Hrun, Hc. specialize (Hrun Hc).
      destruct (callDeepSeek _ _ _ _) as [[cr|e] w2]; cbn [fst] in Hrun;
        [|discriminate].
      injection Hrun as ->. reflexivity.
  - intros Hp Ho Hd.
    rewrite (callAI_openai_failed _ _ _ _ _ _ _ Hp
               (callOpenAI_no_key _ _ _ _ _ _ Ho)), Hd.
    split; reflexivity.
Qed.

End Coordinator.

(* ===================================================================== *)
(** ** The properties at concrete inputs *)
(* ===================================================================== *)

(** C3: [askAI] reports a model other than the one it asked for.  With
    provider ['openai'], no override and no [DEFAULT_MODEL], the request
    carries ['deepseek-chat'] and the response says ['gpt-3.5-turbo']; with
    [DEFAULT_MODEL] set to ['gpt-4'] the request carries ['gpt-4'] and the
    response still says ['gpt-3.5-turbo']. *)
Theorem askAI_reports_a_model_it_did_not_send :
  requests (snd (askAI print_json answers_hello "hi" (Some "openai") None
                       both_keys start))
    = [chat_request print_json openai_url (Some "sk-openai")
                    "deepseek-chat" hi]
  /\ fst (askAI print_json answers_hello "hi" (Some "openai") None
                both_keys start)
     = Normal (mkAIResponse (JStr "hello") "gpt-3.5-turbo" "openai"
                            (mkUsage (Some (JNum 3)) (Some (JNum 5))
                                     (Some (JNum 8))))
  /\ requested_model "openai" both_keys None = "deepseek-chat"
  /\ requests (snd (askAI print_json answers_hello "hi" (Some "openai") None
                          (with_default_model "gpt-4") start))
     = [chat_request print_json openai_url (Some "sk-openai") "gpt-4" hi]
  /\ fst (askAI print_json answers_hello "hi" (Some "openai") None
                (with_default_model "gpt-4") start)
     = Normal (mkAIResponse (JStr "hello") "gpt-3.5-turbo" "openai"
                            (mkUsage (Some (JNum 3)) (Some (JNum 5))
                                     (Some (JNum 8)))).
Proof. repeat split; vm_compute; reflexivity. Qed.

(** C5, the claim as written fails: a 502 whose body is an HTML page makes
    the OpenAI client throw the SyntaxError of [response.json()], which is
    neither the quota error nor the generic upstream error. *)
Lemma openai_unreadable_error_body :
  ok bad_gateway = false
  /\ fst (callOpenAI print_json (always (Fulfilled bad_gateway)) hi
                     (Some "sk-openai") None start)
     = Throw (mkError "SyntaxError" "Unexpected token '<'")
  /\ mkError "SyntaxError" "Unexpected token '<'" <> Error quota_message
  /\ forall body : string,
       mkError "SyntaxError" "Unexpected token '<'"
       <> Error ("OpenAI API error: 502 " ++ body).
Proof.
  repeat split; try (vm_compute; reflexivity); intros; discriminate.
Qed.

(** C6, the claim as written fails: a 200 whose first choice has no
    [message] lacks [choices[0].message.content], and both clients throw a
    TypeError instead of returning ['No response']. *)
Lemma headless_choice_is_a_failure :
  ok (json_response 200 headless_body) = true
  /\ fst (callOpenAI print_json
                     (always (Fulfilled (json_response 200 headless_body)))
                     hi (Some "sk-openai") None start)
     = Throw (TypeError
                "Cannot read properties of undefined (reading 'content')")
  /\ fst (callDeepSeek print_json
                       (always (Fulfilled (json_response 200 headless_body)))
                       hi (Some "sk-deepseek") None start)
     = Throw (TypeError
                "Cannot read properties of undefined (reading 'content')").
Proof. repeat split; vm_compute; reflexivity. Qed.

(** C1 at work: OpenAI refuses the request for ['gpt-4'], DeepSeek is
    configured, and the answer comes from DeepSeek's ['deepseek-chat'] with
    the provider ['deepseek']. *)
Lemma failed_primary_falls_back_once_witness :
  fst (callAI print_json only_deepseek_answers hi both_keys (Some "openai")
              (Some "gpt-4") start)
    = Normal (mkAIResult (JStr "hello") hello_usage "deepseek")
  /\ (forall res w2,
        callAI print_json only_deepseek_answers hi both_keys (Some "openai")
               (Some "gpt-4") start = (Normal res, w2) ->
        ar_provider res = "deepseek")
  /\ requests (snd (callAI print_json only_deepseek_answers hi both_keys
                           (Some "openai") (Some "gpt-4") start))
     = [chat_request print_json openai_url (Some "sk-openai") "gpt-4" hi;
        chat_request print_json deepseek_url (Some "sk-deepseek")
                     "deepseek-chat" hi].
Proof.
  eassert (Hfail : callOpenAI print_json only_deepseek_answers hi
                     (OPENAI_API_KEY both_keys)
                     (Some (requested_model "openai" both_keys (Some "gpt-4")))
                     start = (Throw _, _))
    by (vm_compute; reflexivity).
  destruct (proj1 (proj1 (failed_primary_falls_back_once
                            print_json only_deepseek_answers hi both_keys
                            (Some "openai") (Some "gpt-4") start _ _)
                         eq_refl Hfail)
                  eq_refl) as (Hresult & Hlabel & Hrequests).
  split; [|split].
  - rewrite Hresult. vm_compute. reflexivity.
  - exact Hlabel.
  - rewrite Hrequests. vm_compute. reflexivity.
Defined.

(** C2 at work: the override wins; without override and default the
    request to OpenAI carries ['deepseek-chat']. *)
Lemma openai_path_model_witness :
  nth_error (requests (snd (callAI print_json answers_hello hi
                                   (with_default_model "gpt-4o")
                                   (Some "openai") (Some "gpt-4") start))) 0
    = Some (chat_request print_json openai_url (Some "sk-openai") "gpt-4" hi)
  /\ nth_error (requests (snd (callAI print_json answers_hello hi
                                      (with_default_model "gpt-4o")
                                      None None start))) 0
     = Some (chat_request print_json openai_url (Some "sk-openai")
                          "gpt-4o" hi)
  /\ nth_error (requests (snd (callAI print_json answers_hello hi both_keys
                                      None None start))) 0
     = Some (chat_request print_json openai_url (Some "sk-openai")
                          "deepseek-chat" hi).
Proof.
  split; [|split].
  - apply (proj1 (openai_path_model print_json answers_hello hi
                    (with_default_model "gpt-4o") (Some "openai")
                    (Some "gpt-4") start eq_refl eq_refl) "gpt-4" eq_refl).
    discriminate.
  - apply (proj1 (proj2 (openai_path_model print_json answers_hello hi
                           (with_default_model "gpt-4o") None None start
                           eq_refl eq_refl)) eq_refl "gpt-4o" eq_refl).
    discriminate.
  - apply (proj2 (proj2 (openai_path_model print_json answers_hello hi
                           both_keys None None start eq_refl eq_refl))
             eq_refl eq_refl).
Defined.

(** C4 at work: DeepSeek, preferred, refuses; OpenAI, the fallback, refuses
    too; the OpenAI error is thrown and two requests were made. *)
Lemma at_most_one_fallback_witness :
  fst (callAI print_json refuses hi both_keys (Some "deepseek") None start)
    = Throw (Error ("OpenAI API error: 401 "
                      ++ print_json unauthorized_body))
  /\ requests (snd (callAI print_json refuses hi both_keys (Some "deepseek")
                           None start))
     = [chat_request print_json deepseek_url (Some "sk-deepseek")
                     "deepseek-chat" hi;
        chat_request print_json openai_url (Some "sk-openai")
                     "gpt-3.5-turbo" hi].
Proof.
  eassert (Hfirst : callDeepSeek print_json refuses hi
                      (DEEPSEEK_API_KEY both_keys)
                      (Some (requested_model "deepseek" both_keys None))
                      start = (Throw _, _))
    by (vm_compute; reflexivity).
  eassert (Hsecond : callOpenAI print_json refuses hi
                       (OPENAI_API_KEY both_keys) (Some "gpt-3.5-turbo")
                       (announce_fallback "deepseek" "OpenAI"
                          (snd (callDeepSeek print_json refuses hi
                                  (Some "sk-deepseek") (Some "deepseek-chat")
                                  start)))
                     = (Throw _, _))
    by (vm_compute; reflexivity).
  destruct (proj2 (proj2 (at_most_one_fallback print_json refuses hi
                            both_keys (Some "deepseek") None start))
                  _ _ _ _ eq_refl Hfirst eq_refl Hsecond) as [Hrun _].
  rewrite Hrun. split; vm_compute; reflexivity.
Defined.

(** C5 at work: a 429 that marks insufficient quota gives the quota error
    from the OpenAI client and the generic error from the DeepSeek client; a
    401 gives the generic error from the OpenAI client. *)
Lemma upstream_failure_classification_witness :
  fst (callOpenAI print_json (always (Fulfilled (json_response 429 quota_body)))
                  hi (Some "sk-openai") None start)
    = Throw (Error quota_message)
  /\ fst (callDeepSeek print_json
                       (always (Fulfilled (json_response 429 quota_body)))
                       hi (Some "sk-openai") None start)
     = Throw (Error ("DeepSeek API error: 429 " ++ print_json quota_body))
  /\ fst (callOpenAI print_json refuses hi (Some "sk-openai") None start)
     = Throw (Error ("OpenAI API error: 401 "
                       ++ print_json unauthorized_body)).
Proof.
  split; [|split].
  - apply (proj1 (proj1 (upstream_failure_classification
                           print_json
                           (always (Fulfilled (json_response 429 quota_body)))
                           hi (Some "sk-openai") None start
                           (json_response 429 quota_body) eq_refl eq_refl)
                        eq_refl)
                 quota_body eq_refl).
    discriminate.
  - apply (proj2 (upstream_failure_classification
                    print_json
                    (always (Fulfilled (json_response 429 quota_body)))
                    hi (Some "sk-openai") None start
                    (json_response 429 quota_body) eq_refl eq_refl)
                 eq_refl).
  - apply (proj1 (proj1 (upstream_failure_classification
                           print_json refuses hi (Some "sk-openai") None start
                           (json_response 401 unauthorized_body)
                           eq_refl eq_refl)
                        eq_refl)
                 unauthorized_body eq_refl).
    discriminate.
Defined.

(** C6 at work: a 200 with an empty [choices] array. *)
Lemma missing_content_reads_no_response_witness :
  fst (callOpenAI print_json
                  (always (Fulfilled (json_response 200 empty_body)))
                  hi (Some "sk-openai") None start)
    = Normal (mkClientResult (JStr "No response") undefined)
  /\ fst (callDeepSeek print_json
                       (always (Fulfilled (json_response 200 empty_body)))
                       hi (Some "sk-deepseek") (Some "deepseek-coder") start)
     = Normal (mkClientResult (JStr "No response") undefined).
Proof.
  split.
  - apply (proj1 (missing_content_reads_no_response
                    print_json
                    (always (Fulfilled (json_response 200 empty_body)))
                    hi (Some "sk-openai") None start
                    (json_response 200 empty_body) empty_body
                    eq_refl eq_refl eq_refl eq_refl)
                 eq_refl).
  - apply (proj2 (missing_content_reads_no_response
                    print_json
                    (always (Fulfilled (json_response 200 empty_body)))
                    hi (Some "sk-deepseek") (Some "deepseek-coder") start
                    (json_response 200 empty_body) empty_body
                    eq_refl eq_refl eq_refl eq_refl)
                 eq_refl).
Defined.

(** C8 at work: one key absent, the other empty, no provider named. *)
Lemma no_credentials_no_request_witness :
  fst (callAI print_json answers_hello hi no_keys None None start)
    = Throw (Error "OpenAI API key is not configured")
  /\ trace (snd (callAI print_json answers_hello hi no_keys None None start))
     = []
  /\ fst (askAI print_json answers_hello "hi" None None no_keys start)
     = Throw (Error "AI query failed: OpenAI API key is not configured")
  /\ trace (snd (askAI print_json answers_hello "hi" None None no_keys start))
     = [].
Proof.
  exact (no_credentials_no_request print_json answers_hello hi "hi" no_keys
           None None start eq_refl eq_refl).
Defined.


(** C10 at work: an empty and an absent OpenAI key give the same run, and
    that run is answered by DeepSeek. *)
Lemma empty_credential_is_absent_credential_witness :
  callAI print_json answers_hello hi empty_openai_key (Some "openai") None
         start
    = callAI print_json answers_hello hi absent_openai_key (Some "openai")
             None start
  /\ requests (snd (callAI print_json answers_hello hi empty_openai_key
                           (Some "openai") None start))
     = [chat_request print_json deepseek_url (Some "sk-deepseek")
                     "deepseek-chat" hi]
  /\ fst (callAI print_json answers_hello hi empty_openai_key (Some "openai")
                 None start)
     = Normal (mkAIResult (JStr "hello") hello_usage "deepseek")
  /\ fst (callAI print_json answers_hello hi no_keys (Some "openai") None
                 start)
     = Throw (Error "OpenAI API key is not configured").
Proof.
  destruct (empty_credential_is_absent_credential
              print_json answers_hello hi empty_openai_key absent_openai_key
              (Some "openai") None start)
    as (_ & _ & Hsame & Hfallback & _).
  destruct (Hfallback eq_refl eq_refl eq_refl) as [Hrequests Hanswer].
  split; [|split; [|split]].
  - apply Hsame.
    + right. split; reflexivity.
    + left. reflexivity.
    + reflexivity.
  - exact Hrequests.
  - apply (Hanswer (json_response 200 (completion_body "hello"))
                   (completion_body "hello") (JStr "hello"));
      reflexivity.
  - apply (proj2 (proj2 (proj2 (proj2
             (empty_credential_is_absent_credential
                print_json answers_hello hi no_keys no_keys
                (Some "openai") None start))))
             eq_refl eq_refl eq_refl).
Defined.

(* ===================================================================== *)
(** ** Further properties of the clients and the direct resolvers *)
(* ===================================================================== *)

Section ClientsFurther.

Variable stringify : json -> string.
Variable net : Net.

Local Abbreviation callOpenAI := (callOpenAI stringify net).
Local Abbreviation callDeepSeek := (callDeepSeek stringify net).
Local Abbreviation chatGPT := (chatGPT stringify net).
Local Abbreviation deepseek := (deepseek stringify net).
Local Abbreviation chat_request := (chat_request stringify).

Lemma truthy_string_some (key : option string) :
  truthy_string key = true -> exists k, key = Some k /\ k <> "".
Proof.
  destruct key as [k|]; [|discriminate]. cbn. intros H.
  exists k. split; [reflexivity|]. intros ->. discriminate H.
Qed.

(** What the OpenAI client puts on the trace: nothing, or one request to
    its endpoint with its key. *)
Lemma callOpenAI_adds messages apiKey model w :
  exists more,
    adds more w (snd (callOpenAI messages apiKey model w))
    /\ (length more <= 1)%nat
    /\ Forall (fun x => url (fst x) = openai_url
                        /\ exists k, apiKey = Some k /\ k <> ""
                                     /\ headers (fst x) = bearer_headers k)
              more.
Proof.
  unfold adds. destruct (truthy_string apiKey) eqn:Hkey.
  - eexists. split; [now apply callOpenAI_trace|]. split; [cbn; lia|].
    constructor; [|constructor]. split; [reflexivity|].
    destruct (truthy_string_some _ Hkey) as (k & -> & Hk). eauto.
  - exists []. rewrite callOpenAI_no_key by assumption. cbn.
    rewrite app_nil_r. repeat split; [lia|constructor].
Qed.

Lemma callDeepSeek_adds messages apiKey model w :
  exists more,
    adds more w (snd (callDeepSeek messages apiKey model w))
    /\ (length more <= 1)%nat
    /\ Forall (fun x => url (fst x) = deepseek_url
                        /\ exists k, apiKey = Some k /\ k <> ""
                                     /\ headers (fst x) = bearer_headers k)
              more.
Proof.
  unfold adds. destruct (truthy_string apiKey) eqn:Hkey.
  - eexists. split; [now apply callDeepSeek_trace|]. split; [cbn; lia|].
    constructor; [|constructor]. split; [reflexivity|].
    destruct (truthy_string_some _ Hkey) as (k & -> & Hk). eauto.
  - exists []. rewrite callDeepSeek_no_key by assumption. cbn.
    rewrite app_nil_r. repeat split; [lia|constructor].
Qed.

(** A well-formed answer is read as it is. *)
Lemma first_content_answer (data : json) (s : string) w :
  answers_with data s -> s <> "" ->
  first_content data w = (Normal (JStr s), w).
Proof.
  intros (choice & rest & msg & Hchoices & Hmsg & Hcontent) Hs.
  assert (Hnn : data <> JNull) by (intros ->; discriminate Hchoices).
  unfold first_content, bind, await, ret.
  rewrite (get_defined data _ Hnn), Hchoices.
  cbn [get own nth_error nullish key_text]. rewrite Hmsg.
  cbn [get own key_text]. rewrite Hcontent.
  cbn [or_string truthy]. apply String.eqb_neq in Hs. rewrite Hs. reflexivity.
Qed.

(** X8: a client with a key throws the transport's own error: the rejection
    of [fetch] when the network fails, and the error of [response.json()]
    when a 2xx response has a body that is not JSON. *)
Theorem transport_failures_surface_unchanged messages apiKey model w :
  truthy_string apiKey = true ->
  let openai := chat_request openai_url apiKey
                             (default_to "gpt-3.5-turbo" model) messages in
  let deepseek := chat_request deepseek_url apiKey
                               (default_to "deepseek-chat" model) messages in
  (forall e, net (trace w) openai = Rejected e ->
             fst (callOpenAI messages apiKey model w) = Throw e)
  /\ (forall r e, net (trace w) openai = Fulfilled r -> ok r = true ->
                  json_body r = Throw e ->
                  fst (callOpenAI messages apiKey model w) = Throw e)
  /\ (forall e, net (trace w) deepseek = Rejected e ->
                fst (callDeepSeek messages apiKey model w) = Throw e)
  /\ (forall r e, net (trace w) deepseek = Fulfilled r -> ok r = true ->
                  json_body r = Throw e ->
                  fst (callDeepSeek messages apiKey model w) = Throw e).
Proof.
  intros Hkey openai deepseek. repeat split.
  - intros e Hnet. run. rewrite Hkey. cbn [negb]. fold openai.
    rewrite Hnet. reflexivity.
  - intros r e Hnet Hok Hbody. run. rewrite Hkey. cbn [negb]. fold openai.
    rewrite Hnet, Hok. cbn [negb]. rewrite Hbody. reflexivity.
  - intros e Hnet. run. rewrite Hkey. cbn [negb trace console]. fold deepseek.
    rewrite Hnet. reflexivity.
  - intros r e Hnet Hok Hbody. run. rewrite Hkey. cbn [negb trace console].
    fold deepseek. rewrite Hnet, Hok. cbn [negb]. rewrite Hbody. reflexivity.
Qed.

(** [chatGPT] by cases on how the client ends. *)
Lemma chatGPT_cases prompt model env w :
  let m := default_to "gpt-3.5-turbo" model in
  chatGPT prompt model env w =
    match callOpenAI [mkMessage user prompt] (OPENAI_API_KEY env) (Some m) w
    with
    | (Normal result, w1) =>
        (Normal (mkAIResponse (cr_content result) m "openai"
                              (usage_or_zeros (cr_usage result))), w1)
    | (Throw error, w1) =>
        (Throw (Error ("ChatGPT error: " ++ message error)), w1)
    end.
Proof.
  intros m. unfold_chatGPT. fold m. unfold try_catch, bind, ret, throw.
  destruct (callOpenAI _ _ _ w) as [[result|error] w1]; reflexivity.
Qed.

(** [deepseek] by cases on how the client ends. *)
Lemma deepseek_cases prompt model env w :
  let m := default_to "deepseek-chat" model in
  deepseek prompt model env w =
    match callDeepSeek [mkMessage user prompt] (DEEPSEEK_API_KEY env)
                       (Some m) w
    with
    | (Normal result, w1) =>
        (Normal (mkAIResponse (cr_content result) m "deepseek"
                              (usage_or_zeros (cr_usage result))), w1)
    | (Throw error, w1) =>
        (Throw (Error ("DeepSeek error: " ++ message error)), w1)
    end.
Proof.
  intros m. unfold_deepseek. fold m. unfold try_catch, bind, ret, throw.
  destruct (callDeepSeek _ _ _ w) as [[result|error] w1]; reflexivity.
Qed.

(** X5: the direct resolvers stay with their provider.  [chatGPT] issues at
    most one request and only to the OpenAI endpoint, [deepseek] at most one
    and only to the DeepSeek endpoint, whatever other key is configured;
    when the client fails, the resolver throws a plain Error whose message
    is the client's message behind ['ChatGPT error: '] or
    ['DeepSeek error: ']. *)
Theorem direct_queries_never_fall_back prompt model env w :
  (exists more,
      adds more w (snd (chatGPT prompt model env w))
      /\ (length more <= 1)%nat
      /\ Forall (fun x => url (fst x) = openai_url) more)
  /\ (forall e,
        fst (chatGPT prompt model env w) = Throw e ->
        name e = "Error"
        /\ exists cause,
             fst (callOpenAI [mkMessage user prompt] (OPENAI_API_KEY env)
                             (Some (default_to "gpt-3.5-turbo" model)) w)
               = Throw cause
             /\ message e = "ChatGPT error: " ++ message cause)
  /\ (exists more,
         adds more w (snd (deepseek prompt model env w))
         /\ (length more <= 1)%nat
         /\ Forall (fun x => url (fst x) = deepseek_url) more)
  /\ (forall e,
        fst (deepseek prompt model env w) = Throw e ->
        name e = "Error"
        /\ exists cause,
             fst (callDeepSeek [mkMessage user prompt] (DEEPSEEK_API_KEY env)
                               (Some (default_to "deepseek-chat" model)) w)
               = Throw cause
             /\ message e = "DeepSeek error: " ++ message cause).
Proof.
  rewrite chatGPT_cases, deepseek_cases. repeat split.
  - destruct (callOpenAI_adds [mkMessage user prompt] (OPENAI_API_KEY env)
                (Some (default_to "gpt-3.5-turbo" model)) w)
      as (more & Hadds & Hlen & Hall).
    exists more.
    destruct (callOpenAI _ _ _ w) as [[result|error] w1]; cbn [snd] in *;
      (split; [exact Hadds|]; split; [exact Hlen|]);
      (eapply Forall_impl; [|exact Hall]); now intros x [Hurl _].
  - destruct (callOpenAI _ _ _ w) as [[result|error] w1]; cbn [fst] in *;
      [discriminate|]. injection H as <-. reflexivity.
  - destruct (callOpenAI _ _ _ w) as [[result|error] w1]; cbn [fst] in *;
      [discriminate|]. injection H as <-. exists error. split; reflexivity.
  - destruct (callDeepSeek_adds [mkMessage user prompt] (DEEPSEEK_API_KEY env)
                (Some (default_to "deepseek-chat" model)) w)
      as (more & Hadds & Hlen & Hall).
    exists more.
    destruct (callDeepSeek _ _ _ w) as [[result|error] w1]; cbn [snd] in *;
      (split; [exact Hadds|]; split; [exact Hlen|]);
      (eapply Forall_impl; [|exact Hall]); now intros x [Hurl _].
  - destruct (callDeepSeek _ _ _ w) as [[result|error] w1]; cbn [fst] in *;
      [discriminate|]. injection H as <-. reflexivity.
  - destruct (callDeepSeek _ _ _ w) as [[result|error] w1]; cbn [fst] in *;
      [discriminate|]. injection H as <-. exists error. split; reflexivity.
Qed.

(** X6: a direct resolver that returns reports the model it sent: the
    response names the resolver's provider, its [model] is the argument (or
    the resolver's default), and the one request made carries that model
    and the prompt as the only message. *)
Theorem direct_queries_report_the_model_sent prompt model env w resp w' :
  (chatGPT prompt model env w = (Normal resp, w') ->
   resp_provider resp = "openai"
   /\ resp_model resp = default_to "gpt-3.5-turbo" model
   /\ requests w'
      = (requests w ++ [chat_request openai_url (OPENAI_API_KEY env)
                                     (resp_model resp)
                                     [mkMessage user prompt]])%list)
  /\ (deepseek prompt model env w = (Normal resp, w') ->
      resp_provider resp = "deepseek"
      /\ resp_model resp = default_to "deepseek-chat" model
      /\ requests w'
         = (requests w ++ [chat_request deepseek_url (DEEPSEEK_API_KEY env)
                                        (resp_model resp)
                                        [mkMessage user prompt]])%list).
Proof.
  split.
  - rewrite chatGPT_cases.
    destruct (callOpenAI _ _ _ w) as [[result|error] w1] eqn:Hrun;
      [|discriminate].
    intros [= <- <-].
    destruct (callOpenAI_success _ _ _ _ _ _ _ _ Hrun)
      as (r & d & _ & _ & _ & Htrace & _).
    repeat split. unfold requests. rewrite Htrace, map_app. reflexivity.
  - rewrite deepseek_cases.
    destruct (callDeepSeek _ _ _ w) as [[result|error] w1] eqn:Hrun;
      [|discriminate].
    intros [= <- <-].
    destruct (callDeepSeek_success _ _ _ _ _ _ _ _ Hrun)
      as (r & d & _ & _ & _ & Htrace & _).
    repeat split. unfold requests. rewrite Htrace, map_app. reflexivity.
Qed.

(** X9: a direct query answered by a 2xx response whose first choice has a
    non-empty string content returns that content unchanged, with the
    resolver's provider and the usage read from the same body. *)
Theorem well_formed_answer_is_returned prompt model env w r d s :
  ok r = true ->
  json_body r = Normal d ->
  answers_with d s ->
  s <> "" ->
  (truthy_string (OPENAI_API_KEY env) = true ->
   net (trace w) (chat_request openai_url (OPENAI_API_KEY env)
                               (default_to "gpt-3.5-turbo" model)
                               [mkMessage user prompt]) = Fulfilled r ->
   fst (chatGPT prompt model env w)
     = Normal (mkAIResponse (JStr s) (default_to "gpt-3.5-turbo" model)
                            "openai" (usage_or_zeros (own d (Name "usage")))))
  /\ (truthy_string (DEEPSEEK_API_KEY env) = true ->
      net (trace w) (chat_request deepseek_url (DEEPSEEK_API_KEY env)
                                  (default_to "deepseek-chat" model)
                                  [mkMessage user prompt]) = Fulfilled r ->
      fst (deepseek prompt model env w)
        = Normal (mkAIResponse (JStr s) (default_to "deepseek-chat" model)
                               "deepseek"
                               (usage_or_zeros (own d (Name "usage"))))).
Proof.
  intros Hok Hbody Hans Hs. split; intros Hkey Hnet.
  - rewrite chatGPT_cases.
    pose proof (callOpenAI_ok stringify net [mkMessage user prompt]
                  (OPENAI_API_KEY env)
                  (Some (default_to "gpt-3.5-turbo" model)) w r d (JStr s)
                  Hkey Hnet Hok Hbody) as Hrun.
    rewrite (first_content_answer d s w Hans Hs) in Hrun.
    specialize (Hrun eq_refl).
    destruct (callOpenAI _ _ _ w) as [[result|error] w1]; cbn [fst] in Hrun;
      [|discriminate].
    injection Hrun as ->. reflexivity.
  - rewrite deepseek_cases.
    pose proof (callDeepSeek_ok stringify net [mkMessage user prompt]
                  (DEEPSEEK_API_KEY env)
                  (Some (default_to "deepseek-chat" model)) w r d (JStr s)
                  Hkey Hnet Hok Hbody) as Hrun.
    rewrite (first_content_answer d s w Hans Hs) in Hrun.
    specialize (Hrun eq_refl).
    destruct (callDeepSeek _ _ _ w) as [[result|error] w1]; cbn [fst] in Hrun;
      [|discriminate].
    injection Hrun as ->. reflexivity.
Qed.

End ClientsFurther.

(* ===================================================================== *)
(** ** Further properties of the coordinator and of [askAI] *)
(* ===================================================================== *)

Section CoordinatorFurther.

Variable stringify : json -> string.
Variable net : Net.

Local Abbreviation callOpenAI := (callOpenAI stringify net).
Local Abbreviation callDeepSeek := (callDeepSeek stringify net).
Local Abbreviation callAI := (callAI stringify net).
Local Abbreviation askAI := (askAI stringify net).
Local Abbreviation chat_request := (chat_request stringify).
Local Abbreviation primary_call := (primary_call stringify net).

Lemma adds_nil w : adds [] w w.
Proof. unfold adds. now rewrite app_nil_r. Qed.

Lemma adds_trans more1 more2 w1 w2 w3 :
  adds more1 w1 w2 -> adds more2 w2 w3 -> adds (more1 ++ more2) w1 w3.
Proof. unfold adds. intros H1 H2. now rewrite H2, H1, app_assoc. Qed.

(** What the first client puts on the trace. *)
Lemma primary_call_adds messages env p model w :
  exists more,
    adds more w (snd (primary_call messages env p model w))
    /\ (length more <= 1)%nat
    /\ Forall (fun x => authorized_for env (fst x)) more.
Proof.
  unfold_primary_call. destruct (String.eqb p "deepseek").
  - destruct (callDeepSeek_adds stringify net messages (DEEPSEEK_API_KEY env)
                (Some (requested_model p env model)) w)
      as (more & Hadds & Hlen & Hall).
    exists more. repeat split; try assumption.
    eapply Forall_impl; [|exact Hall]. intros x H. right. exact H.
  - destruct (callOpenAI_adds stringify net messages (OPENAI_API_KEY env)
                (Some (requested_model p env model)) w)
      as (more & Hadds & Hlen & Hall).
    exists more. repeat split; try assumption.
    eapply Forall_impl; [|exact Hall]. intros x H. left. exact H.
Qed.

(** What [callAI] puts on the trace. *)
Lemma callAI_adds messages env provider model w :
  exists more,
    adds more w (snd (callAI messages env provider model w))
    /\ Forall (fun x => authorized_for env (fst x)) more.
Proof.
  rewrite callAI_cases.
  destruct (primary_call_adds messages env (default_to "openai" provider)
              model w) as (more1 & Hadds1 & _ & Hall1).
  destruct (primary_call _ _ _ _ w) as [[result|error] w1]; cbn [snd] in *.
  - exists more1. split; assumption.
  - destruct (_ && _).
    + destruct (callDeepSeek_adds stringify net messages
                  (DEEPSEEK_API_KEY env) (Some "deepseek-chat")
                  (announce_fallback (default_to "openai" provider)
                                     "DeepSeek" w1))
        as (more2 & Hadds2 & _ & Hall2).
      exists (more1 ++ more2)%list. rewrite mapped_snd. split.
      * unfold adds in *. rewrite Hadds2. cbn [announce_fallback trace].
        now rewrite Hadds1, app_assoc.
      * apply Forall_app. split; [assumption|].
        eapply Forall_impl; [|exact Hall2]. intros x H. right. exact H.
    + destruct (_ && _).
      * destruct (callOpenAI_adds stringify net messages
                    (OPENAI_API_KEY env) (Some "gpt-3.5-turbo")
                    (announce_fallback (default_to "openai" provider)
                                       "OpenAI" w1))
          as (more2 & Hadds2 & _ & Hall2).
        exists (more1 ++ more2)%list. rewrite mapped_snd. split.
        -- unfold adds in *. rewrite Hadds2. cbn [announce_fallback trace].
           now rewrite Hadds1, app_assoc.
        -- apply Forall_app. split; [assumption|].
           eapply Forall_impl; [|exact Hall2]. intros x H. left. exact H.
      * exists more1. split; assumption.
Qed.

(** X1: every request [callAI] makes goes to a provider's endpoint with that
    provider's own, non-empty key: the OpenAI key is never sent to DeepSeek
    nor the DeepSeek key to OpenAI, and no request goes out without a key. *)
Theorem keys_stay_with_their_provider messages env provider model w :
  exists more,
    adds more w (snd (callAI messages env provider model w))
    /\ Forall (fun x => authorized_for env (fst x)) more.
Proof. apply callAI_adds. Qed.

(** What a returning first client tells about the trace. *)
Lemma primary_call_success messages env p model w r w1 :
  primary_call messages env p model w = (Normal r, w1) ->
  exists req resp,
    trace w1 = (trace w ++ [(req, Fulfilled resp)])%list
    /\ url req = (if String.eqb p "deepseek" then deepseek_url
                  else openai_url).
Proof.
  unfold_primary_call. destruct (String.eqb p "deepseek"); intros Hrun.
  - destruct (callDeepSeek_success _ _ _ _ _ _ _ _ Hrun)
      as (resp & d & _ & _ & _ & Htrace & _).
    eexists. exists resp. split; [exact Htrace|reflexivity].
  - destruct (callOpenAI_success _ _ _ _ _ _ _ _ Hrun)
      as (resp & d & _ & _ & _ & Htrace & _).
    eexists. exists resp. split; [exact Htrace|reflexivity].
Qed.

(** X2: when the client of the preferred provider returns, [callAI] returns
    its content and usage with the [provider] field set to the preferred
    provider's name; exactly one request was made and the other provider
    was not contacted. *)
Theorem primary_success_is_final messages env provider model w r w1 :
  let p := default_to "openai" provider in
  primary_call messages env p model w = (Normal r, w1) ->
  callAI messages env provider model w
    = (Normal (mkAIResult (cr_content r) (cr_usage r) p), w1)
  /\ exists req resp,
       trace w1 = (trace w ++ [(req, Fulfilled resp)])%list
       /\ url req = (if String.eqb p "deepseek" then deepseek_url
                     else openai_url).
Proof.
  intros p Hrun. split.
  - rewrite callAI_cases. fold p. rewrite Hrun. reflexivity.
  - exact (primary_call_success _ _ _ _ _ _ _ Hrun).
Qed.

(** X3: the [provider] of a result of [callAI] names the endpoint that
    answered: the last exchange went to the DeepSeek endpoint when the
    result says ['deepseek'], and to the OpenAI endpoint otherwise. *)
Theorem provider_names_the_endpoint_that_answered
        messages env provider model w res w' :
  callAI messages env provider model w = (Normal res, w') ->
  exists earlier req resp,
    trace w' = (earlier ++ [(req, Fulfilled resp)])%list
    /\ url req = (if String.eqb (ar_provider res) "deepseek"
                  then deepseek_url else openai_url).
Proof.
  rewrite callAI_cases.
  destruct (primary_call _ _ _ _ w) as [[result|error] w1] eqn:Hrun.
  - intros [= <- <-].
    destruct (primary_call_success _ _ _ _ _ _ _ Hrun)
      as (req & resp & Htrace & Hurl).
    exists (trace w), req, resp. split; assumption.
  - destruct (_ && _).
    + destruct (callDeepSeek _ _ _ _) as [[result|e] w2] eqn:Hfb;
        [|discriminate].
      intros [= <- <-].
      destruct (callDeepSeek_success _ _ _ _ _ _ _ _ Hfb)
        as (resp & d & _ & _ & _ & Htrace & _).
      do 2 eexists. exists resp. split; [exact Htrace|reflexivity].
    + destruct (_ && _); [|discriminate].
      destruct (callOpenAI _ _ _ _) as [[result|e] w2] eqn:Hfb;
        [|discriminate].
      intros [= <- <-].
      destruct (callOpenAI_success _ _ _ _ _ _ _ _ Hfb)
        as (resp & d & _ & _ & _ & Htrace & _).
      do 2 eexists. exists resp. split; [exact Htrace|reflexivity].
Qed.

(** X4: a provider name that is neither ['openai'] nor ['deepseek'] is
    served by the OpenAI client alone: its content and usage are returned
    with the [provider] field set to the unknown name, and its failure is
    thrown again without a fallback, even with both keys configured. *)
Theorem unknown_provider_asks_openai_only messages env p model w :
  p <> "openai" ->
  p <> "deepseek" ->
  let first :=
    callOpenAI messages (OPENAI_API_KEY env)
               (Some (or_literal (or_else model (DEFAULT_MODEL env))
                                 "deepseek-chat")) w in
  (forall r w1,
      first = (Normal r, w1) ->
      callAI messages env (Some p) model w
        = (Normal (mkAIResult (cr_content r) (cr_usage r) p), w1))
  /\ (forall e w1,
        first = (Throw e, w1) ->
        fst (callAI messages env (Some p) model w) = Throw e
        /\ trace (snd (callAI messages env (Some p) model w)) = trace w1).
Proof.
  intros Hopenai Hdeepseek first.
  apply String.eqb_neq in Hopenai, Hdeepseek.
  rewrite callAI_cases. cbn [default_to]. unfold_primary_call.
  unfold requested_model. rewrite Hopenai, Hdeepseek. cbn [andb]. fold first.
  split.
  - intros r w1 ->. reflexivity.
  - intros e w1 ->. split; reflexivity.
Qed.

(** The first request of [callAI] when the preferred provider's key is
    configured. *)
Lemma callAI_first_request messages env provider model w :
  let p := default_to "openai" provider in
  let deepseek := String.eqb p "deepseek" in
  let key := if deepseek then DEEPSEEK_API_KEY env else OPENAI_API_KEY env in
  truthy_string key = true ->
  nth_error (requests (snd (callAI messages env provider model w)))
            (length (trace w))
    = Some (chat_request (if deepseek then deepseek_url else openai_url)
                         key (requested_model p env model) messages).
Proof.
  intros p deepseek key Hkey.
  destruct (callAI_extends_primary stringify net messages env provider
              model w) as [more Hmore].
  unfold requests. rewrite Hmore. fold p. unfold_primary_call.
  subst key deepseek. destruct (String.eqb p "deepseek").
  - rewrite callDeepSeek_trace by assumption. cbn [default_to].
    rewrite <- app_assoc, map_app, nth_error_app2; rewrite length_map;
      [|lia].
    now rewrite Nat.sub_diag.
  - rewrite callOpenAI_trace by assumption. cbn [default_to].
    rewrite <- app_assoc, map_app, nth_error_app2; rewrite length_map;
      [|lia].
    now rewrite Nat.sub_diag.
Qed.

(** X7: with a model override, or with DeepSeek preferred, the [model] that
    [askAI] reports is the one [callAI] asked the preferred provider for;
    when that provider's key is configured it is the model in the first
    request of the run. *)
Theorem askAI_reports_the_model_requested
        prompt provider model env w resp w' :
  let p := default_to "openai" provider in
  let deepseek := String.eqb p "deepseek" in
  let key := if deepseek then DEEPSEEK_API_KEY env else OPENAI_API_KEY env in
  askAI prompt provider model env w = (Normal resp, w') ->
  truthy_string model = true \/ p = "deepseek" ->
  resp_model resp = requested_model p env model
  /\ (truthy_string key = true ->
      nth_error (requests w') (length (trace w))
        = Some (chat_request (if deepseek then deepseek_url else openai_url)
                             key (resp_model resp) [mkMessage user prompt])).
Proof.
  intros p deepseek key. rewrite askAI_cases. fold p.
  destruct (callAI _ _ _ _ w) as [[result|error] w1] eqn:Hrun; [|discriminate].
  intros [= <- <-] Hcase. cbn [resp_model].
  assert (Hecho : or_literal model (if String.eqb p "deepseek"
                                    then "deepseek-chat" else "gpt-3.5-turbo")
                  = requested_model p env model).
  { unfold requested_model, or_else, or_literal.
    destruct Hcase as [Hmodel| ->].
    - destruct model as [m|]; [|discriminate].
      rewrite Hmodel. cbn iota. rewrite Hmodel.
      destruct (String.eqb p "deepseek"); reflexivity.
    - reflexivity. }
  split; [exact Hecho|]. intros Hkey. rewrite Hecho.
  pose proof (callAI_first_request [mkMessage user prompt] env (Some p)
                model w) as Hfirst.
  cbn [default_to] in Hfirst. rewrite Hrun in Hfirst. cbn [snd] in Hfirst.
  exact (Hfirst Hkey).
Qed.

(** X10: whatever makes [callAI] fail, [askAI] throws a plain Error whose
    message is the cause's message behind ['AI query failed: ']: the name
    of the cause (TypeError, SyntaxError) is not kept. *)
Theorem askAI_failures_are_wrapped prompt provider model env w e :
  fst (askAI prompt provider model env w) = Throw e ->
  name e = "Error"
  /\ exists cause,
       fst (callAI [mkMessage user prompt] env
                   (Some (default_to "openai" provider)) model w)
         = Throw cause
       /\ message e = "AI query failed: " ++ message cause.
Proof.
  rewrite askAI_cases.
  destruct (callAI _ _ _ _ w) as [[result|cause] w1]; cbn [fst];
    [discriminate|].
  intros [= <-]. split; [reflexivity|]. exists cause. split; reflexivity.
Qed.

End CoordinatorFurther.

(* ===================================================================== *)
(** ** Properties of the Pokemon resolvers *)
(* ===================================================================== *)

Section PokemonFurther.

Variable stringify : json -> string.
Variable net : Net.
Variable number_text : Q -> string.
Variable request_url : string -> completion string.
Variable toLowerCase : string -> string.
Variable second_first : bool.

Local Abbreviation callAI := (callAI stringify net).
Local Abbreviation chat_request := (chat_request stringify).
Local Abbreviation toString := (toString number_text).
Local Abbreviation pokemon := (pokemon net request_url).
Local Abbreviation pokemonInfo := (pokemonInfo stringify net).
Local Abbreviation fetch_json := (fetch_json net).
Local Abbreviation facts := (facts number_text).
Local Abbreviation comparePokemon :=
  (comparePokemon stringify net number_text toLowerCase second_first).

Local Abbreviation after := (after net).

Lemma bind_await {A B} (c : completion A) (k : A -> M B) w :
  bind (await c) k w
    = match c with
      | Normal a => k a w
      | Throw e => (Throw e, w)
      end.
Proof. destruct c; reflexivity. Qed.

Lemma get_throws_TypeError v k e :
  get v k = Throw e -> exists msg, e = TypeError msg.
Proof.
  destruct v as [[]|]; cbn; intros H; try discriminate H;
    injection H as <-; eauto.
Qed.

(** A data fetch settles as the network decides and leaves one exchange. *)
Lemma fetch_json_run u w :
  fetch_json u w
    = (settled (net (trace w) (get_request u)), after w (get_request u)).
Proof.
  unfold_fetch_json. unfold bind, fetch, await, after, settled.
  destruct (net (trace w) (get_request u)); reflexivity.
Qed.

(** X11: [pokemon] hands on whatever the data source sent.  When
    [new Request] accepts the URL, the one GET request goes to the URL as
    parsed, and the outcome is the parsed body of the response whatever its
    status, the error of [response.json()] when the body is not JSON, or
    the rejection when the fetch fails; when [new Request] rejects the URL,
    its error is thrown and nothing is requested. *)
Theorem pokemon_hands_on_the_body id w :
  (forall u,
      request_url (pokeapi_url id) = Normal u ->
      let req := get_request u in
      (forall r, net (trace w) req = Fulfilled r ->
                 fst (pokemon id w) = json_body r)
      /\ (forall e, net (trace w) req = Rejected e ->
                    fst (pokemon id w) = Throw e)
      /\ trace (snd (pokemon id w))
         = (trace w ++ [(req, net (trace w) req)])%list)
  /\ (forall e,
        request_url (pokeapi_url id) = Throw e ->
        pokemon id w = (Throw e, w)).
Proof.
  split.
  - intros u Hu req. unfold_pokemon. rewrite bind_await, Hu.
    unfold bind, fetch, await. fold req. repeat split.
    + intros r ->. reflexivity.
    + intros e ->. reflexivity.
    + destruct (net (trace w) req); reflexivity.
  - intros e He. unfold_pokemon. now rewrite bind_await, He.
Qed.

(** [pokemonInfo] is [callAI] on its two messages, content only. *)
Lemma pokemonInfo_run name provider env w :
  pokemonInfo name provider env w
    = mapped ar_content
             (callAI (info_messages name) env
                     (Some (default_to "openai" provider)) None w).
Proof.
  unfold_pokemonInfo. unfold bind, ret, mapped, info_messages.
  destruct (callAI _ _ _ _ w) as [[result|error] w1]; reflexivity.
Qed.

(** X12: [pokemonInfo] asks through [callAI] with the persona and the
    question about the name and never with a model of its own: when the
    preferred provider's key is configured the first request carries
    ['deepseek-chat'] for DeepSeek and [DEFAULT_MODEL], else
    ['deepseek-chat'], for OpenAI; a failure is thrown as [callAI] threw it,
    without a prefix. *)
Theorem pokemonInfo_asks_without_a_model name provider env w :
  let p := default_to "openai" provider in
  let deepseek := String.eqb p "deepseek" in
  let key := if deepseek then DEEPSEEK_API_KEY env else OPENAI_API_KEY env in
  (truthy_string key = true ->
   nth_error (requests (snd (pokemonInfo name provider env w)))
             (length (trace w))
     = Some (chat_request (if deepseek then deepseek_url else openai_url) key
                          (if deepseek then "deepseek-chat"
                           else or_literal (DEFAULT_MODEL env) "deepseek-chat")
                          (info_messages name)))
  /\ (forall e,
        fst (pokemonInfo name provider env w) = Throw e <->
        fst (callAI (info_messages name) env (Some p) None w) = Throw e).
Proof.
  intros p deepseek key. rewrite pokemonInfo_run. fold p. split.
  - intros Hkey. rewrite mapped_snd.
    pose proof (callAI_first_request stringify net (info_messages name) env
                  (Some p) None w) as Hfirst.
    cbn [default_to] in Hfirst. fold deepseek key in Hfirst.
    rewrite (Hfirst Hkey). unfold requested_model. fold deepseek.
    destruct deepseek; reflexivity.
  - intros e. destruct (callAI _ _ _ _ w) as [[result|error] w1]; cbn;
      split; intros H; try discriminate; injection H as ->; reflexivity.
Qed.

(** Reading the names of the types has no effect and can only fail with a
    TypeError. *)
Lemma names_pure (elems : list json) :
  exists c,
    (forall w,
        map_M (fun t => ty <- await (get (Some t) (Name "type")) ;;
                        await (get ty (Name "name"))) elems w = (c, w))
    /\ (forall e, c = Throw e -> exists msg, e = TypeError msg).
Proof.
  induction elems as [|t rest (c & Hrun & Herr)].
  - exists (Normal []). split; [reflexivity|discriminate].
  - destruct (get (Some t) (Name "type")) as [ty|e] eqn:Hty.
    + destruct (get ty (Name "name")) as [n|e] eqn:Hn.
      * destruct c as [names|e].
        -- exists (Normal (n :: names)). split; [|discriminate].
           intros w. cbn [map_M]. unfold bind at 1.
           rewrite bind_await, Hty. unfold await. rewrite Hn.
           unfold bind. now rewrite Hrun.
        -- exists (Throw e). split; [|exact Herr].
           intros w. cbn [map_M]. unfold bind at 1.
           rewrite bind_await, Hty. unfold await. rewrite Hn.
           unfold bind. now rewrite Hrun.
      * exists (Throw e). split.
        -- intros w. cbn [map_M]. unfold bind at 1.
           rewrite bind_await, Hty. unfold await. now rewrite Hn.
        -- intros e' [= <-]. exact (get_throws_TypeError _ _ _ Hn).
    + exists (Throw e). split.
      * intros w. cbn [map_M]. unfold bind at 1.
        now rewrite bind_await, Hty.
      * intros e' [= <-]. exact (get_throws_TypeError _ _ _ Hty).
Qed.

(** ToString can only fail with a TypeError. *)
Lemma texts_throw_TypeError elems :
  Forall (fun j => forall e, toString j = Throw e ->
                             exists msg, e = TypeError msg) elems ->
  forall e, texts toString elems = Throw e -> exists msg, e = TypeError msg.
Proof.
  induction 1 as [|j rest Hj _ IH]; cbn [texts]; [discriminate|].
  intros e. destruct (element_text toString j) as [s|x] eqn:Helem.
  - destruct (texts toString rest) as [ss|x]; [discriminate|].
    intros [= <-]. now apply IH.
  - intros [= <-]. destruct j; cbn [element_text] in Helem;
      try discriminate Helem; exact (Hj _ Helem).
Qed.

Lemma toString_throws_TypeError j :
  forall e, toString j = Throw e -> exists msg, e = TypeError msg.
Proof.
  induction j as [|b|q|s|elems IH|fields] using json_elems_ind;
    intros e; cbn; try discriminate.
  - destruct b; discriminate.
  - destruct (texts toString elems) as [ss|x] eqn:Htexts; [discriminate|].
    intros [= <-]. exact (texts_throw_TypeError elems IH _ Htexts).
  - destruct (assoc "toString" fields); [|discriminate].
    intros [= <-]. eauto.
Qed.

Lemma interpolate_throws_TypeError v e :
  interpolate number_text v = Throw e -> exists msg, e = TypeError msg.
Proof.
  destruct v as [j|]; cbn; [apply toString_throws_TypeError|discriminate].
Qed.

Lemma join_text_throws_TypeError v e :
  join_text number_text v = Throw e -> exists msg, e = TypeError msg.
Proof.
  unfold join_text. destruct (nullish v); [discriminate|].
  apply interpolate_throws_TypeError.
Qed.

(** Turning the names into text has no effect and can only fail with a
    TypeError. *)
Lemma parts_pure (names : list value) :
  exists c,
    (forall w,
        map_M (fun v => await (join_text number_text v)) names w = (c, w))
    /\ (forall e, c = Throw e -> exists msg, e = TypeError msg).
Proof.
  induction names as [|v rest (c & Hrun & Herr)].
  - exists (Normal []). split; [reflexivity|discriminate].
  - destruct (join_text number_text v) as [s|e] eqn:Hv.
    + destruct c as [parts|e].
      * exists (Normal (s :: parts)). split; [|discriminate].
        intros w. cbn [map_M]. rewrite bind_await, Hv.
        unfold bind. now rewrite Hrun.
      * exists (Throw e). split; [|exact Herr].
        intros w. cbn [map_M]. rewrite bind_await, Hv.
        unfold bind. now rewrite Hrun.
    + exists (Throw e). split.
      * intros w. cbn [map_M]. now rewrite bind_await, Hv.
      * intros e' [= <-]. exact (join_text_throws_TypeError _ _ Hv).
Qed.

(** Joining the names of the types has no effect and can only fail with a
    TypeError; it fails when [types] is not an array. *)
Lemma type_names_pure var data :
  exists c,
    (forall w, type_names number_text var data w = (c, w))
    /\ (forall e, c = Throw e -> exists msg, e = TypeError msg)
    /\ ((forall elems, own data (Name "types") <> Some (JArr elems)) ->
        exists msg, c = Throw (TypeError msg)).
Proof.
  unfold type_names.
  destruct (get (Some data) (Name "types")) as [types|e] eqn:Htypes.
  - assert (Hown : types = own data (Name "types"))
      by (destruct data; cbn in *; congruence).
    destruct (get types (Name "map")) as [m|e] eqn:Hmap.
    + destruct types as [[| | | |elems|]|] eqn:Hshape;
        try discriminate Hmap;
        try (exists (Throw (TypeError (var ++ ".types.map is not a function")));
             split;
             [intros w; rewrite bind_await; cbv beta iota;
              rewrite bind_await, Hmap; reflexivity|];
             split; [intros e [= <-]; eauto|]; intros _; eauto; fail).
      destruct (names_pure elems) as (c & Hrun & Herr).
      destruct c as [names|e].
      * destruct (parts_pure names) as (c & Hparts & Hperr).
        destruct c as [parts|e].
        -- exists (Normal (String.concat ", " parts)).
           split; [|split; [discriminate|]].
           ++ intros w. rewrite bind_await. cbv beta iota.
              rewrite bind_await, Hmap. unfold bind at 1. rewrite Hrun.
              unfold bind. rewrite Hparts. reflexivity.
           ++ intros Hno. now elim (Hno elems).
        -- exists (Throw e).
           split; [|split; [intros e' [= <-]; exact (Hperr e eq_refl)|]].
           ++ intros w. rewrite bind_await. cbv beta iota.
              rewrite bind_await, Hmap. unfold bind at 1. rewrite Hrun.
              unfold bind. rewrite Hparts. reflexivity.
           ++ intros Hno. now elim (Hno elems).
      * exists (Throw e).
        split; [|split; [intros e' [= <-]; exact (Herr e eq_refl)|]].
        -- intros w. rewrite bind_await. cbv beta iota.
           rewrite bind_await, Hmap. unfold bind at 1. rewrite Hrun.
           reflexivity.
        -- intros Hno. now elim (Hno elems).
    + exists (Throw e). split; [|split].
      * intros w. rewrite bind_await. cbv beta iota.
        now rewrite bind_await, Hmap.
      * intros e' [= <-]. exact (get_throws_TypeError _ _ _ Hmap).
      * intros _. destruct (get_throws_TypeError _ _ _ Hmap) as [msg ->].
        eauto.
  - exists (Throw e). split; [|split].
    + intros w. now rewrite bind_await.
    + intros e' [= <-]. exact (get_throws_TypeError _ _ _ Htypes).
    + intros _. destruct (get_throws_TypeError _ _ _ Htypes) as [msg ->].
      eauto.
Qed.

(** Building a line of facts has no effect and can only fail with a
    TypeError; it fails when [types] is not an array. *)
Lemma facts_pure var name data :
  exists c,
    (forall w, facts var name data w = (c, w))
    /\ (forall e, c = Throw e -> exists msg, e = TypeError msg)
    /\ ((forall elems, own data (Name "types") <> Some (JArr elems)) ->
        exists msg, c = Throw (TypeError msg)).
Proof.
  unfold_facts.
  destruct (get (Some data) (Name "height")) as [height|e] eqn:Hheight.
  2:{ exists (Throw e). split; [|split].
      - intros w. now rewrite bind_await.
      - intros e' [= <-]. exact (get_throws_TypeError _ _ _ Hheight).
      - intros _. destruct (get_throws_TypeError _ _ _ Hheight) as [msg ->].
        eauto. }
  destruct (interpolate number_text height) as [ht|e] eqn:Hht.
  2:{ exists (Throw e). split; [|split].
      - intros w. rewrite bind_await. cbv beta iota.
        now rewrite bind_await, Hht.
      - intros e' [= <-]. exact (interpolate_throws_TypeError _ _ Hht).
      - intros _. destruct (interpolate_throws_TypeError _ _ Hht) as [msg ->].
        eauto. }
  destruct (get (Some data) (Name "weight")) as [weight|e] eqn:Hweight.
  2:{ exists (Throw e). split; [|split].
      - intros w. rewrite bind_await. cbv beta iota.
        rewrite bind_await, Hht. cbv beta iota. now rewrite bind_await.
      - intros e' [= <-]. exact (get_throws_TypeError _ _ _ Hweight).
      - intros _. destruct (get_throws_TypeError _ _ _ Hweight) as [msg ->].
        eauto. }
  destruct (interpolate number_text weight) as [wt|e] eqn:Hwt.
  2:{ exists (Throw e). split; [|split].
      - intros w. rewrite bind_await. cbv beta iota.
        rewrite bind_await, Hht. cbv beta iota.
        rewrite bind_await. cbv beta iota. now rewrite bind_await, Hwt.
      - intros e' [= <-]. exact (interpolate_throws_TypeError _ _ Hwt).
      - intros _. destruct (interpolate_throws_TypeError _ _ Hwt) as [msg ->].
        eauto. }
  destruct (type_names_pure var data) as (c & Hrun & Herr & Hno).
  destruct c as [types|e].
  - eexists (Normal _). split; [|split; [discriminate|]].
    + intros w. rewrite bind_await. cbv beta iota.
      rewrite bind_await, Hht. cbv beta iota.
      rewrite bind_await. cbv beta iota. rewrite bind_await, Hwt.
      cbv beta iota. unfold bind. rewrite Hrun. reflexivity.
    + intros H. destruct (Hno H) as [msg Hmsg]. discriminate Hmsg.
  - exists (Throw e).
    split; [|split; [intros e' [= <-]; exact (Herr e eq_refl)|]].
    + intros w. rewrite bind_await. cbv beta iota.
      rewrite bind_await, Hht. cbv beta iota.
      rewrite bind_await. cbv beta iota. rewrite bind_await, Hwt.
      cbv beta iota. unfold bind. rewrite Hrun. reflexivity.
    + intros H. destruct (Hno H) as [msg [= ->]]. eauto.
Qed.

(** [comparePokemon] by cases on how the two data fetches settle. *)
Lemma comparePokemon_run pokemon1 pokemon2 provider env w :
  let req1 := get_request (pokeapi_url (toLowerCase pokemon1)) in
  let req2 := get_request (pokeapi_url (toLowerCase pokemon2)) in
  let w1 := after w req1 in
  let w2 := after w1 req2 in
  comparePokemon pokemon1 pokemon2 provider env w =
    match settled (net (trace w) req1), settled (net (trace w1) req2) with
    | Normal data1, Normal data2 =>
        match fst (facts "data1" pokemon1 data1 w2),
              fst (facts "data2" pokemon2 data2 w2) with
        | Normal line1, Normal line2 =>
            mapped ar_content
                   (callAI (comparison_messages pokemon1 pokemon2 line1 line2)
                           env (Some (default_to "openai" provider)) None w2)
        | Throw e, _ => (Throw e, w2)
        | Normal _, Throw e => (Throw e, w2)
        end
    | Throw e, Normal _ => (Throw e, w2)
    | Normal _, Throw e => (Throw e, w2)
    | Throw e1, Throw e2 => (Throw (if second_first then e2 else e1), w2)
    end.
Proof.
  intros req1 req2 w1 w2. unfold_comparePokemon.
  unfold bind at 1, promise at 1. rewrite fetch_json_run. fold req1 w1.
  unfold bind at 1, promise at 1. rewrite fetch_json_run. fold req2 w2.
  unfold bind at 1.
  destruct (settled (net (trace w) req1)) as [data1|e1];
    destruct (settled (net (trace w1) req2)) as [data2|e2];
    try reflexivity.
  cbn [Promise_all2 ret].
  destruct (facts_pure "data1" pokemon1 data1) as (c1 & Hrun1 & _).
  destruct (facts_pure "data2" pokemon2 data2) as (c2 & Hrun2 & _).
  unfold bind at 1. rewrite !Hrun1. cbn [fst].
  destruct c1 as [line1|e]; [|reflexivity].
  unfold bind at 1. rewrite !Hrun2. cbn [fst].
  destruct c2 as [line2|e]; [|reflexivity].
  unfold bind, ret, mapped, comparison_messages.
  destruct (callAI _ _ _ _ w2) as [[result|error] w3]; reflexivity.
Qed.

(** The trace after the two data fetches. *)
Lemma trace_after_two w req1 req2 :
  trace (after (after w req1) req2)
    = (trace w ++ [(req1, net (trace w) req1);
                   (req2, net (trace w ++ [(req1, net (trace w) req1)])
                              req2)])%list.
Proof. cbn. now rewrite <- app_assoc. Qed.

(** X13: [comparePokemon] starts with the two data fetches, for the
    lower-cased names and in the order of its arguments, whatever the first
    one gives; any request after them goes to an AI provider with that
    provider's key. *)
Theorem comparePokemon_fetches_both_first pokemon1 pokemon2 provider env w :
  let req1 := get_request (pokeapi_url (toLowerCase pokemon1)) in
  let req2 := get_request (pokeapi_url (toLowerCase pokemon2)) in
  let out1 := net (trace w) req1 in
  let out2 := net (trace w ++ [(req1, out1)])%list req2 in
  exists more,
    trace (snd (comparePokemon pokemon1 pokemon2 provider env w))
      = (trace w ++ [(req1, out1); (req2, out2)] ++ more)%list
    /\ Forall (fun x => authorized_for env (fst x)) more.
Proof.
  intros req1 req2 out1 out2. rewrite comparePokemon_run.
  fold req1 req2. set (w2 := after (after w req1) req2).
  assert (Htwo : trace w2 = (trace w ++ [(req1, out1); (req2, out2)])%list)
    by (cbn; now rewrite <- app_assoc).
  assert (Hstop : forall (c : completion json),
             exists more,
               trace (snd (c, w2))
                 = (trace w ++ [(req1, out1); (req2, out2)] ++ more)%list
               /\ Forall (fun x => authorized_for env (fst x)) more).
  { intros c. exists []. cbn [snd]. rewrite Htwo, app_nil_r.
    split; [reflexivity|constructor]. }
  cbn [after trace].
  destruct (settled (net (trace w) req1)) as [data1|e1];
    destruct (settled _) as [data2|e2]; try apply Hstop.
  destruct (fst (facts "data1" pokemon1 data1 w2)) as [line1|e];
    [|apply Hstop].
  destruct (fst (facts "data2" pokemon2 data2 w2)) as [line2|e];
    [|apply Hstop].
  rewrite mapped_snd.
  destruct (callAI_adds stringify net
              (comparison_messages pokemon1 pokemon2 line1 line2) env
              (Some (default_to "openai" provider)) None w2)
    as (more & Hadds & Hall).
  exists more. split; [|exact Hall].
  unfold adds in Hadds. rewrite Hadds, Htwo, <- app_assoc. reflexivity.
Qed.

(** X14: when a data fetch fails (the fetch rejects, or the body is not
    JSON) [comparePokemon] throws the error of a failed fetch and makes no
    request after the two data fetches: no comparison is asked for with the
    data of one Pokemon. *)
Theorem comparePokemon_needs_both_data pokemon1 pokemon2 provider env w :
  let req1 := get_request (pokeapi_url (toLowerCase pokemon1)) in
  let req2 := get_request (pokeapi_url (toLowerCase pokemon2)) in
  let out1 := net (trace w) req1 in
  let out2 := net (trace w ++ [(req1, out1)])%list req2 in
  is_throw (settled out1) || is_throw (settled out2) = true ->
  trace (snd (comparePokemon pokemon1 pokemon2 provider env w))
    = (trace w ++ [(req1, out1); (req2, out2)])%list
  /\ exists e,
       fst (comparePokemon pokemon1 pokemon2 provider env w) = Throw e
       /\ (settled out1 = Throw e \/ settled out2 = Throw e).
Proof.
  intros req1 req2 out1 out2. rewrite comparePokemon_run.
  fold req1 req2. pose proof (trace_after_two w req1 req2) as Htwo.
  fold out1 in Htwo. fold out2 in Htwo.
  change (net (trace (after w req1)) req2) with out2.
  change (net (trace w) req1) with out1.
  destruct (settled out1) as [data1|e1]; destruct (settled out2) as [data2|e2];
    cbn [is_throw orb fst snd]; try discriminate; intros _;
    (split; [exact Htwo|]).
  - exists e2. auto.
  - exists e1. auto.
  - destruct second_first; [exists e2|exists e1]; auto.
Qed.

(** X15: the status of a data response is not looked at, so a body that
    parses but has no [types] array (an error document, [null]) is taken as
    data; [comparePokemon] then throws a TypeError while building the
    prompt and makes no request after the two data fetches. *)
Theorem comparePokemon_needs_types
        pokemon1 pokemon2 provider env w data1 data2 :
  let req1 := get_request (pokeapi_url (toLowerCase pokemon1)) in
  let req2 := get_request (pokeapi_url (toLowerCase pokemon2)) in
  let out1 := net (trace w) req1 in
  let out2 := net (trace w ++ [(req1, out1)])%list req2 in
  settled out1 = Normal data1 ->
  settled out2 = Normal data2 ->
  (forall elems, own data1 (Name "types") <> Some (JArr elems))
  \/ (forall elems, own data2 (Name "types") <> Some (JArr elems)) ->
  trace (snd (comparePokemon pokemon1 pokemon2 provider env w))
    = (trace w ++ [(req1, out1); (req2, out2)])%list
  /\ exists msg,
       fst (comparePokemon pokemon1 pokemon2 provider env w)
         = Throw (TypeError msg).
Proof.
  intros req1 req2 out1 out2 H1 H2 Hno. rewrite comparePokemon_run.
  fold req1 req2. pose proof (trace_after_two w req1 req2) as Htwo.
  fold out1 in Htwo. fold out2 in Htwo.
  change (net (trace (after w req1)) req2) with out2.
  change (net (trace w) req1) with out1. rewrite H1, H2.
  destruct (facts_pure "data1" pokemon1 data1) as (c1 & Hrun1 & Herr1 & Hno1).
  destruct (facts_pure "data2" pokemon2 data2) as (c2 & Hrun2 & Herr2 & Hno2).
  rewrite Hrun1, Hrun2. cbn [fst].
  destruct c1 as [line1|e1].
  - destruct Hno as [Hno|Hno];
      [destruct (Hno1 Hno) as [msg Hmsg]; discriminate Hmsg|].
    destruct (Hno2 Hno) as [msg ->]. cbn [fst snd].
    split; [exact Htwo|eauto].
  - destruct (Herr1 e1 eq_refl) as [msg ->]. cbn [fst snd].
    split; [exact Htwo|eauto].
Qed.

(** Reading the names of well-formed entries. *)
Lemma names_of_entries elems names w :
  Forall2 names_type elems names ->
  map_M (fun t => ty <- await (get (Some t) (Name "type")) ;;
                  await (get ty (Name "name"))) elems w
    = (Normal (map (fun n => Some (JStr n)) names), w).
Proof.
  intros H. induction H as [|t n elems names (ty & Hty & Hn) _ IH].
  - reflexivity.
  - cbn [map_M map]. unfold bind at 1. rewrite bind_await.
    assert (Ht : t <> JNull) by (intros ->; discriminate Hty).
    assert (Hnn : ty <> JNull) by (intros ->; discriminate Hn).
    rewrite (get_defined t _ Ht), Hty. change (await ?c w) with (c, w).
    rewrite (get_defined ty _ Hnn), Hn. unfold bind at 1.
    rewrite IH. reflexivity.
Qed.

(** The text of string names is the names. *)
Lemma parts_of_strings (names : list string) w :
  map_M (fun v => await (join_text number_text v))
        (map (fun n => Some (JStr n)) names) w
    = (Normal names, w).
Proof.
  induction names as [|n rest IH]; [reflexivity|].
  cbn [map map_M]. rewrite bind_await. cbn [join_text nullish interpolate].
  change (toString (JStr n)) with (@Normal string n). cbv beta iota.
  unfold bind at 1. rewrite IH. reflexivity.
Qed.

(** X16: for a body whose [height] and [weight] have a text, and whose
    [types] array has entries with string [type.name]s, the line of facts
    is the name, the two texts, and the type names in the order of the
    array, joined by a comma and a space. *)
Theorem facts_of_a_well_formed_body
        var name data height weight height_text weight_text elems names w :
  own data (Name "height") = Some height ->
  toString height = Normal height_text ->
  own data (Name "weight") = Some weight ->
  toString weight = Normal weight_text ->
  own data (Name "types") = Some (JArr elems) ->
  Forall2 names_type elems names ->
  facts var name data w
    = (Normal (name ++ ": 身高" ++ height_text
                    ++ ", 体重" ++ weight_text
                    ++ ", 类型" ++ String.concat ", " names), w).
Proof.
  intros Hheight Hht Hweight Hwt Htypes Hnames.
  assert (Hnn : data <> JNull) by (intros ->; discriminate Hheight).
  unfold_facts. rewrite bind_await, (get_defined data _ Hnn), Hheight.
  cbv beta iota. rewrite bind_await. cbn [interpolate]. rewrite Hht.
  cbv beta iota. rewrite bind_await, (get_defined data _ Hnn), Hweight.
  cbv beta iota. rewrite bind_await. cbn [interpolate]. rewrite Hwt.
  cbv beta iota. unfold bind at 1. unfold type_names.
  rewrite bind_await, (get_defined data _ Hnn), Htypes. cbv beta iota.
  rewrite bind_await. cbn [get]. unfold bind at 1.
  rewrite (names_of_entries _ _ _ Hnames). unfold bind at 1.
  rewrite parts_of_strings. reflexivity.
Qed.

(** X17: when both data fetches give a body and both lines of facts can be
    built, [comparePokemon] asks once through [callAI], after the two data
    fetches, with the persona and a prompt holding both names and both
    lines, and returns the content of the answer; no model is passed, and a
    failure is the failure of [callAI]. *)
Theorem comparePokemon_asks_with_both_lines
        pokemon1 pokemon2 provider env w data1 data2 line1 line2 :
  let req1 := get_request (pokeapi_url (toLowerCase pokemon1)) in
  let req2 := get_request (pokeapi_url (toLowerCase pokemon2)) in
  let w2 := after (after w req1) req2 in
  settled (net (trace w) req1) = Normal data1 ->
  settled (net (trace (after w req1)) req2) = Normal data2 ->
  fst (facts "data1" pokemon1 data1 w2) = Normal line1 ->
  fst (facts "data2" pokemon2 data2 w2) = Normal line2 ->
  comparePokemon pokemon1 pokemon2 provider env w
    = mapped ar_content
             (callAI (comparison_messages pokemon1 pokemon2 line1 line2) env
                     (Some (default_to "openai" provider)) None w2).
Proof.
  intros req1 req2 w2 H1 H2 Hline1 Hline2. rewrite comparePokemon_run.
  fold req1 req2 w2. rewrite H1, H2, Hline1, Hline2. reflexivity.
Qed.

End PokemonFurther.

(* ===================================================================== *)
(** ** The further properties at concrete inputs *)
(* ===================================================================== *)

(** The network is down for the OpenAI client; DeepSeek answers 200 with a
    page that is not JSON. *)
Lemma transport_failures_surface_unchanged_witness :
  fst (callOpenAI print_json offline hi (Some "sk-openai") None start)
    = Throw (TypeError "fetch failed")
  /\ fst (callDeepSeek print_json (always (Fulfilled garbled)) hi
                       (Some "sk-deepseek") None start)
     = Throw (mkError "SyntaxError" "Unexpected token '<'").
Proof.
  split.
  - apply (proj1 (transport_failures_surface_unchanged
                    print_json offline hi (Some "sk-openai") None start
                    eq_refl)).
    reflexivity.
  - apply (proj2 (proj2 (proj2 (transport_failures_surface_unchanged
                                  print_json (always (Fulfilled garbled)) hi
                                  (Some "sk-deepseek") None start eq_refl)))
                 garbled); reflexivity.
Defined.

(** OpenAI refuses [chatGPT]; DeepSeek, though configured, is not asked. *)
Lemma direct_queries_never_fall_back_witness :
  exists e,
    fst (chatGPT print_json refuses "hi" None both_keys start) = Throw e
    /\ name e = "Error"
    /\ exists cause,
         fst (callOpenAI print_json refuses [mkMessage user "hi"]
                         (Some "sk-openai") (Some "gpt-3.5-turbo") start)
           = Throw cause
         /\ message e = "ChatGPT error: " ++ message cause.
Proof.
  eassert (Hrun : fst (chatGPT print_json refuses "hi" None both_keys start)
                  = Throw _) by (vm_compute; reflexivity).
  eexists. split; [exact Hrun|].
  exact (proj1 (proj2 (direct_queries_never_fall_back
                         print_json refuses "hi" None both_keys start))
               _ Hrun).
Defined.

(** [deepseek] asked for ['deepseek-coder'] reports ['deepseek-coder']. *)
Lemma direct_queries_report_the_model_sent_witness :
  exists resp w',
    deepseek print_json answers_hello "hi" (Some "deepseek-coder") both_keys
             start = (Normal resp, w')
    /\ resp_provider resp = "deepseek"
    /\ resp_model resp = "deepseek-coder"
    /\ requests w'
       = [chat_request print_json deepseek_url (Some "sk-deepseek")
                       (resp_model resp) [mkMessage user "hi"]].
Proof.
  eassert (Hrun : deepseek print_json answers_hello "hi"
                           (Some "deepseek-coder") both_keys start
                  = (Normal _, _)) by (vm_compute; reflexivity).
  do 2 eexists. split; [exact Hrun|].
  exact (proj2 (direct_queries_report_the_model_sent
                  print_json answers_hello "hi" (Some "deepseek-coder")
                  both_keys start _ _) Hrun).
Defined.

(** Both direct resolvers on a completion that says "hello". *)
Lemma well_formed_answer_is_returned_witness :
  fst (chatGPT print_json answers_hello "hi" None both_keys start)
    = Normal (mkAIResponse (JStr "hello") "gpt-3.5-turbo" "openai"
                           (mkUsage (Some (JNum 3)) (Some (JNum 5))
                                    (Some (JNum 8))))
  /\ fst (deepseek print_json answers_hello "hi" None both_keys start)
     = Normal (mkAIResponse (JStr "hello") "deepseek-chat" "deepseek"
                            (mkUsage (Some (JNum 3)) (Some (JNum 5))
                                     (Some (JNum 8)))).
Proof.
  assert (Hanswer : answers_with (completion_body "hello") "hello")
    by (do 3 eexists; repeat split; reflexivity).
  assert (Hs : "hello" <> "") by discriminate.
  destruct (well_formed_answer_is_returned
              print_json answers_hello "hi" None both_keys start
              (json_response 200 (completion_body "hello"))
              (completion_body "hello") "hello"
              eq_refl eq_refl Hanswer Hs) as [Hopenai Hdeepseek].
  split.
  - exact (Hopenai eq_refl eq_refl).
  - exact (Hdeepseek eq_refl eq_refl).
Defined.

(** OpenAI answers at once: one request, no fallback. *)
Lemma primary_success_is_final_witness :
  exists r w1,
    primary_call print_json answers_hello hi both_keys "openai" None start
      = (Normal r, w1)
    /\ callAI print_json answers_hello hi both_keys None None start
       = (Normal (mkAIResult (cr_content r) (cr_usage r) "openai"), w1)
    /\ cr_content r = JStr "hello"
    /\ requests w1
       = [chat_request print_json openai_url (Some "sk-openai")
                       "deepseek-chat" hi].
Proof.
  eassert (Hrun : primary_call print_json answers_hello hi both_keys
                               (default_to "openai" None) None start
                  = (Normal _, _)) by (vm_compute; reflexivity).
  do 2 eexists. split; [exact Hrun|]. split; [|split].
  - exact (proj1 (primary_success_is_final
                    print_json answers_hello hi both_keys None None start
                    _ _ Hrun)).
  - reflexivity.
  - reflexivity.
Defined.

(** After a fallback the result says ['deepseek'] and the last exchange
    went to the DeepSeek endpoint. *)
Lemma provider_names_the_endpoint_that_answered_witness :
  exists res w',
    callAI print_json only_deepseek_answers hi both_keys (Some "openai") None
           start = (Normal res, w')
    /\ ar_provider res = "deepseek"
    /\ exists earlier req resp,
         trace w' = (earlier ++ [(req, Fulfilled resp)])%list
         /\ url req = (if String.eqb (ar_provider res) "deepseek"
                       then deepseek_url else openai_url).
Proof.
  eassert (Hrun : callAI print_json only_deepseek_answers hi both_keys
                         (Some "openai") None start = (Normal _, _))
    by (vm_compute; reflexivity).
  do 2 eexists. split; [exact Hrun|]. split; [reflexivity|].
  exact (provider_names_the_endpoint_that_answered
           print_json only_deepseek_answers hi both_keys (Some "openai")
           None start _ _ Hrun).
Defined.

(** A provider called ['claude']: when OpenAI answers, the result says
    ['claude']; when OpenAI refuses, DeepSeek, though configured, is not
    asked. *)
Lemma unknown_provider_asks_openai_only_witness :
  fst (callAI print_json answers_hello hi both_keys (Some "claude") None start)
    = Normal (mkAIResult (JStr "hello") hello_usage "claude")
  /\ fst (callAI print_json refuses hi both_keys (Some "claude") None start)
     = Throw (Error ("OpenAI API error: 401 "
                       ++ print_json unauthorized_body))
  /\ requests (snd (callAI print_json refuses hi both_keys (Some "claude")
                           None start))
     = [chat_request print_json openai_url (Some "sk-openai")
                     "deepseek-chat" hi].
Proof.
  assert (H1 : "claude" <> "openai") by discriminate.
  assert (H2 : "claude" <> "deepseek") by discriminate.
  eassert (Hok : callOpenAI print_json answers_hello hi
                   (OPENAI_API_KEY both_keys)
                   (Some (or_literal (or_else None (DEFAULT_MODEL both_keys))
                                     "deepseek-chat")) start
                 = (Normal _, _)) by (vm_compute; reflexivity).
  eassert (Hrun : callOpenAI print_json refuses hi (OPENAI_API_KEY both_keys)
                    (Some (or_literal (or_else None (DEFAULT_MODEL both_keys))
                                      "deepseek-chat")) start
                  = (Throw _, _)) by (vm_compute; reflexivity).
  destruct (proj2 (unknown_provider_asks_openai_only
                     print_json refuses hi both_keys "claude" None start
                     H1 H2) _ _ Hrun) as [Hthrow Htrace].
  split; [|split].
  - rewrite (proj1 (unknown_provider_asks_openai_only
                      print_json answers_hello hi both_keys "claude" None
                      start H1 H2) _ _ Hok).
    reflexivity.
  - exact Hthrow.
  - unfold requests. rewrite Htrace. reflexivity.
Defined.

(** An override ['gpt-4'] is what [askAI] reports and what the first
    request carried, although DeepSeek answered. *)
Lemma askAI_reports_the_model_requested_witness :
  exists resp w',
    askAI print_json only_deepseek_answers "hi" (Some "openai")
          (Some "gpt-4") both_keys start = (Normal resp, w')
    /\ resp_provider resp = "deepseek"
    /\ resp_model resp = "gpt-4"
    /\ nth_error (requests w') 0
       = Some (chat_request print_json openai_url (Some "sk-openai")
                            (resp_model resp) [mkMessage user "hi"]).
Proof.
  eassert (Hrun : askAI print_json only_deepseek_answers "hi" (Some "openai")
                        (Some "gpt-4") both_keys start = (Normal _, _))
    by (vm_compute; reflexivity).
  do 2 eexists. split; [exact Hrun|]. split; [reflexivity|].
  destruct (askAI_reports_the_model_requested
              print_json only_deepseek_answers "hi" (Some "openai")
              (Some "gpt-4") both_keys start _ _ Hrun (or_introl eq_refl))
    as [Hmodel Hfirst].
  split.
  - exact Hmodel.
  - exact (Hfirst eq_refl).
Defined.

(** The network is down: the TypeError of [fetch] reaches the caller of
    [askAI] as a plain Error. *)
Lemma askAI_failures_are_wrapped_witness :
  exists e,
    fst (askAI print_json offline "hi" None None both_keys start) = Throw e
    /\ name e = "Error"
    /\ exists cause,
         fst (callAI print_json offline [mkMessage user "hi"] both_keys
                     (Some "openai") None start) = Throw cause
         /\ message e = "AI query failed: " ++ message cause.
Proof.
  eassert (Hrun : fst (askAI print_json offline "hi" None None both_keys
                             start) = Throw _) by (vm_compute; reflexivity).
  eexists. split; [exact Hrun|].
  exact (askAI_failures_are_wrapped
           print_json offline "hi" None None both_keys start _ Hrun).
Defined.

(** [pokemon] for a name the data source does not know: the 404 page is not
    JSON and its parse error is the outcome, a JSON error document is
    returned as data; for a name with a space the request goes to the URL
    as parsed; a URL the constructor rejects is never requested. *)
Lemma pokemon_hands_on_the_body_witness :
  fst (pokemon pokedex parse_url "mew" start)
    = Throw (mkError "SyntaxError" "Unexpected token 'N'")
  /\ fst (pokemon polite_pokedex parse_url "mew" start)
     = Normal (JObj [("detail", JStr "Not found")])
  /\ requests (snd (pokemon pokedex parse_url "mr mime" start))
     = [get_request "https://pokeapi.co/api/v2/pokemon/mr%20mime"]
  /\ pokemon pokedex no_url "pikachu" start
     = (Throw (TypeError "Invalid URL"), start).
Proof.
  split; [|split; [|split]].
  - exact (proj1 (proj1 (pokemon_hands_on_the_body
                           pokedex parse_url "mew" start) _ eq_refl)
                 not_found eq_refl).
  - exact (proj1 (proj1 (pokemon_hands_on_the_body
                           polite_pokedex parse_url "mew" start) _ eq_refl)
                 (json_response 404 (JObj [("detail", JStr "Not found")]))
                 eq_refl).
  - unfold requests.
    rewrite (proj2 (proj2 (proj1 (pokemon_hands_on_the_body
                                    pokedex parse_url "mr mime" start)
                                 _ eq_refl))).
    reflexivity.
  - exact (proj2 (pokemon_hands_on_the_body pokedex no_url "pikachu" start)
                 _ eq_refl).
Defined.

(** [pokemonInfo] with OpenAI preferred and no [DEFAULT_MODEL] asks OpenAI
    for ['deepseek-chat']. *)
Lemma pokemonInfo_asks_without_a_model_witness :
  nth_error (requests (snd (pokemonInfo print_json pokedex "Pikachu" None
                                        both_keys start))) 0
    = Some (chat_request print_json openai_url (Some "sk-openai")
                         "deepseek-chat" (info_messages "Pikachu")).
Proof.
  exact (proj1 (pokemonInfo_asks_without_a_model
                  print_json pokedex "Pikachu" None both_keys start)
               eq_refl).
Defined.

(** Pikachu is known, Mew is not: the parse error of the second fetch is
    thrown and no provider is asked. *)
Lemma comparePokemon_needs_both_data_witness :
  fst (comparePokemon print_json pokedex show_number lower false
                      "Pikachu" "Mew" None both_keys start)
    = Throw (mkError "SyntaxError" "Unexpected token 'N'")
  /\ requests (snd (comparePokemon print_json pokedex show_number lower false
                                   "Pikachu" "Mew" None both_keys start))
     = [get_request (pokeapi_url "pikachu"); get_request (pokeapi_url "mew")].
Proof.
  destruct (comparePokemon_needs_both_data
              print_json pokedex show_number lower false
              "Pikachu" "Mew" None both_keys start eq_refl)
    as [Htrace (e & Hthrow & Hcause)].
  split.
  - rewrite Hthrow. f_equal.
    destruct Hcause as [Hcause|Hcause]; vm_compute in Hcause;
      [discriminate Hcause|].
    injection Hcause as <-. reflexivity.
  - unfold requests. rewrite Htrace. reflexivity.
Defined.

(** The data source answers the unknown name with a JSON error document:
    it is taken as data, and building the prompt throws. *)
Lemma comparePokemon_needs_types_witness :
  requests (snd (comparePokemon print_json polite_pokedex show_number lower false
                                "Pikachu" "Mew" None both_keys start))
    = [get_request (pokeapi_url "pikachu"); get_request (pokeapi_url "mew")]
  /\ exists msg,
       fst (comparePokemon print_json polite_pokedex show_number lower false
                           "Pikachu" "Mew" None both_keys start)
         = Throw (TypeError msg).
Proof.
  assert (Hno : forall elems,
             own (JObj [("detail", JStr "Not found")]) (Name "types")
             <> Some (JArr elems)) by (intros elems; discriminate).
  destruct (comparePokemon_needs_types
              print_json polite_pokedex show_number lower false
              "Pikachu" "Mew" None both_keys start
              pikachu (JObj [("detail", JStr "Not found")])
              eq_refl eq_refl (or_intror Hno)) as [Htrace Hthrow].
  split.
  - unfold requests. rewrite Htrace. reflexivity.
  - exact Hthrow.
Defined.

(** The line of facts for Charizard. *)
Lemma facts_of_a_well_formed_body_witness :
  facts show_number "data2" "Charizard" charizard start
    = (Normal "Charizard: 身高17, 体重905, 类型fire, flying", start).
Proof.
  assert (Hnames : Forall2 names_type
                     [JObj [("slot", JNum 1);
                            ("type", JObj [("name", JStr "fire")])];
                      JObj [("slot", JNum 1);
                            ("type", JObj [("name", JStr "flying")])]]
                     ["fire"; "flying"]).
  { repeat constructor; eexists; split; reflexivity. }
  exact (facts_of_a_well_formed_body
           show_number "data2" "Charizard" charizard
           (JNum 17) (JNum 905) "17" "905" _ ["fire"; "flying"] start
           eq_refl eq_refl eq_refl eq_refl eq_refl Hnames).
Defined.

(** Pikachu against Charizard: two data fetches, then one question to the
    preferred provider with both lines in the prompt. *)
Lemma comparePokemon_asks_with_both_lines_witness :
  fst (comparePokemon print_json pokedex show_number lower false
                      "Pikachu" "Charizard" None both_keys start)
    = Normal (JStr "hello")
  /\ requests (snd (comparePokemon print_json pokedex show_number lower false
                                   "Pikachu" "Charizard" None both_keys start))
     = [get_request (pokeapi_url "pikachu");
        get_request (pokeapi_url "charizard");
        chat_request print_json openai_url (Some "sk-openai") "deepseek-chat"
          (comparison_messages
             "Pikachu" "Charizard"
             "Pikachu: 身高4, 体重60, 类型electric"
             "Charizard: 身高17, 体重905, 类型fire, flying")].
Proof.
  rewrite (comparePokemon_asks_with_both_lines
             print_json pokedex show_number lower false
             "Pikachu" "Charizard" None both_keys start
             pikachu charizard
             "Pikachu: 身高4, 体重60, 类型electric"
             "Charizard: 身高17, 体重905, 类型fire, flying"
             eq_refl eq_refl eq_refl eq_refl).
  split; vm_compute; reflexivity.
Defined.

(* ===================================================================== *)
(** ** Properties of the worker's [fetch] handler *)
(* ===================================================================== *)

Lemma same_name_query q name n :
  same_name q name = true -> same_name n q = same_name n name.
Proof.
  unfold same_name. intros H. apply String.eqb_eq in H. now rewrite H.
Qed.

Lemma same_name_other q name n :
  same_name q name = false -> same_name n name = true -> same_name n q = false.
Proof.
  unfold same_name. intros Hq Hn. apply String.eqb_eq in Hn. rewrite Hn.
  rewrite String.eqb_sym. exact Hq.
Qed.

Lemma same_name_refl name : same_name name name = true.
Proof. apply String.eqb_refl. Qed.

Lemma headers_values_delete_same q name hs :
  same_name q name = true -> headers_values q (headers_delete name hs) = [].
Proof.
  intros Hq. induction hs as [|[n v] rest IH]; [reflexivity|].
  cbn [headers_delete]. destruct (same_name n name) eqn:Hn; [exact IH|].
  cbn [headers_values]. rewrite (same_name_query _ _ n Hq), Hn. exact IH.
Qed.

Lemma headers_values_delete_other q name hs :
  same_name q name = false ->
  headers_values q (headers_delete name hs) = headers_values q hs.
Proof.
  intros Hq. induction hs as [|[n v] rest IH]; [reflexivity|].
  cbn [headers_delete headers_values].
  destruct (same_name n name) eqn:Hn.
  - rewrite (same_name_other _ _ n Hq Hn). exact IH.
  - cbn [headers_values]. now rewrite IH.
Qed.

(** After [set] the name has the one value. *)
Lemma headers_values_set_same q name value hs :
  same_name q name = true ->
  headers_values q (headers_set name value hs) = [value].
Proof.
  intros Hq. induction hs as [|[n v] rest IH].
  - cbn. rewrite (same_name_query _ _ name Hq), same_name_refl. reflexivity.
  - cbn [headers_set]. destruct (same_name n name) eqn:Hn.
    + cbn [headers_values]. rewrite (same_name_query _ _ n Hq), Hn.
      now rewrite headers_values_delete_same.
    + cbn [headers_values]. rewrite (same_name_query _ _ n Hq), Hn. exact IH.
Qed.

(** [set] leaves the other names alone. *)
Lemma headers_values_set_other q name value hs :
  same_name q name = false ->
  headers_values q (headers_set name value hs) = headers_values q hs.
Proof.
  intros Hq. induction hs as [|[n v] rest IH].
  - cbn. unfold same_name in *. rewrite String.eqb_sym, Hq. reflexivity.
  - cbn [headers_set headers_values]. destruct (same_name n name) eqn:Hn.
    + cbn [headers_values]. rewrite (same_name_other _ _ n Hq Hn).
      now apply headers_values_delete_other.
    + cbn [headers_values]. now rewrite IH.
Qed.

Section WorkerFurther.

Variable yoga_fetch : Request -> Env -> M WebResponse.

(** What the constructor returns, when it returns. *)
Lemma new_Response_normal body status statusText headers resp :
  new_Response body status statusText headers = Normal resp ->
  resp = mkWebResponse status statusText headers body.
Proof.
  unfold new_Response.
  destruct (_ || _)%Z; [discriminate|].
  destruct (negb _); [discriminate|].
  destruct body; [destruct (null_body_status status); [discriminate|]|];
    now intros [= <-].
Qed.

(** X18: every response the handler returns carries
    [Access-Control-Allow-Origin: *], once, under whatever case the name is
    asked for, also when the GraphQL server had set that header to other
    values. *)
Theorem every_response_allows_any_origin request env w resp w' q :
  Worker.fetch yoga_fetch request env w = (Normal resp, w') ->
  same_name q "Access-Control-Allow-Origin" = true ->
  headers_values q (web_headers resp) = ["*"]
  /\ headers_get q (web_headers resp) = Some "*".
Proof.
  unfold Worker.fetch, headers_get. intros Hrun Hq.
  destruct (String.eqb (method request) "OPTIONS").
  - injection Hrun as <- _. cbn [web_headers headers_values].
    rewrite (same_name_query _ _ _ Hq), same_name_refl.
    rewrite !(same_name_query _ _ _ Hq). split; reflexivity.
  - unfold bind, await in Hrun.
    destruct (yoga_fetch request env w) as [[response|e] w1];
      [|discriminate].
    injection Hrun as Hresp _.
    rewrite (new_Response_normal _ _ _ _ _ Hresp). cbn [web_headers].
    rewrite headers_values_set_same by assumption. split; reflexivity.
Qed.

(** X19: an OPTIONS request is answered by the handler itself, with status
    200, no body and the three CORS headers; the GraphQL server is not
    run, so no resolver runs and nothing is requested. *)
Theorem preflight_is_answered_without_yoga request env w :
  method request = "OPTIONS" ->
  exists resp,
    Worker.fetch yoga_fetch request env w = (Normal resp, w)
    /\ web_status resp = 200%Z
    /\ web_body resp = None
    /\ headers_get "access-control-allow-origin" (web_headers resp)
       = Some "*"
    /\ headers_get "access-control-allow-methods" (web_headers resp)
       = Some "GET, POST, OPTIONS"
    /\ headers_get "access-control-allow-headers" (web_headers resp)
       = Some "Content-Type".
Proof.
  intros Hmethod. unfold Worker.fetch. rewrite Hmethod.
  eexists. split; [reflexivity|]. repeat split.
Qed.

(** X20: for any other method, when the GraphQL server returns a response
    that the Response constructor accepts (a status from 200 to 599, a
    status text that is a reason phrase, no body with a status that goes
    without one), the handler returns it with its status, status text and
    body and with every header other than [Access-Control-Allow-Origin] as
    it was; a response with a status outside 200..599 makes the handler
    throw a RangeError; a failure of the server is the failure of the
    handler. *)
Theorem cors_wrapping_keeps_the_response request env w :
  method request <> "OPTIONS" ->
  (forall response w1,
      yoga_fetch request env w = (Normal response, w1) ->
      (200 <= web_status response <= 599)%Z ->
      is_reason_phrase (web_statusText response) = true ->
      web_body response = None
      \/ null_body_status (web_status response) = false ->
      exists resp,
        Worker.fetch yoga_fetch request env w = (Normal resp, w1)
        /\ web_status resp = web_status response
        /\ web_statusText resp = web_statusText response
        /\ web_body resp = web_body response
        /\ forall q, same_name q "Access-Control-Allow-Origin" = false ->
                     headers_get q (web_headers resp)
                     = headers_get q (web_headers response))
  /\ (forall response w1,
        yoga_fetch request env w = (Normal response, w1) ->
        (web_status response < 200 \/ 599 < web_status response)%Z ->
        exists msg,
          Worker.fetch yoga_fetch request env w
            = (Throw (mkError "RangeError" msg), w1))
  /\ (forall e w1,
        yoga_fetch request env w = (Throw e, w1) ->
        Worker.fetch yoga_fetch request env w = (Throw e, w1)).
Proof.
  intros Hmethod. apply String.eqb_neq in Hmethod.
  unfold Worker.fetch. rewrite Hmethod. unfold bind, await.
  split; [|split].
  - intros response w1 -> Hstatus Htext Hbody.
    exists (mkWebResponse (web_status response) (web_statusText response)
              (headers_set "Access-Control-Allow-Origin" "*"
                           (web_headers response))
              (web_body response)).
    split.
    + unfold new_Response.
      replace ((web_status response <? 200) || (599 <? web_status response))%Z
        with false by (symmetry; apply orb_false_iff; split;
                       [apply Z.ltb_ge|apply Z.ltb_ge]; lia).
      rewrite Htext. cbn [negb].
      destruct Hbody as [->| ->]; [reflexivity|].
      destruct (web_body response); reflexivity.
    + repeat split. intros q Hq. unfold headers_get. cbn [web_headers].
      now rewrite headers_values_set_other.
  - intros response w1 -> Hstatus. unfold new_Response.
    replace ((web_status response <? 200) || (599 <? web_status response))%Z
      with true by (symmetry; apply orb_true_iff;
                    destruct Hstatus; [left|right]; apply Z.ltb_lt; lia).
    eexists. reflexivity.
  - intros e w1 ->. reflexivity.
Qed.

End WorkerFurther.

(** The server's two origin headers become the one [*]. *)
Lemma every_response_allows_any_origin_witness :
  exists resp w',
    Worker.fetch sample_yoga post_request both_keys start = (Normal resp, w')
    /\ headers_values "ACCESS-CONTROL-ALLOW-ORIGIN" (web_headers resp) = ["*"]
    /\ headers_get "ACCESS-CONTROL-ALLOW-ORIGIN" (web_headers resp)
       = Some "*".
Proof.
  eassert (Hrun : Worker.fetch sample_yoga post_request both_keys start
                  = (Normal _, _)) by (vm_compute; reflexivity).
  do 2 eexists. split; [exact Hrun|].
  exact (every_response_allows_any_origin
           sample_yoga post_request both_keys start _ _
           "ACCESS-CONTROL-ALLOW-ORIGIN" Hrun eq_refl).
Defined.

Lemma preflight_is_answered_without_yoga_witness :
  exists resp,
    Worker.fetch sample_yoga options_request both_keys start
      = (Normal resp, start)
    /\ web_status resp = 200%Z
    /\ web_body resp = None
    /\ headers_get "access-control-allow-origin" (web_headers resp)
       = Some "*"
    /\ headers_get "access-control-allow-methods" (web_headers resp)
       = Some "GET, POST, OPTIONS"
    /\ headers_get "access-control-allow-headers" (web_headers resp)
       = Some "Content-Type".
Proof.
  exact (preflight_is_answered_without_yoga
           sample_yoga options_request both_keys start eq_refl).
Defined.

Lemma cors_wrapping_keeps_the_response_witness :
  (exists resp,
      Worker.fetch sample_yoga post_request both_keys start
        = (Normal resp, start)
      /\ web_status resp = 200%Z
      /\ web_statusText resp = "OK"
      /\ web_body resp = Some "{}"
      /\ forall q, same_name q "Access-Control-Allow-Origin" = false ->
                   headers_get q (web_headers resp)
                   = headers_get q
                       [("content-type", "application/json");
                        ("access-control-allow-origin", "https://example.com");
                        ("Access-Control-Allow-Origin", "null")])
  /\ exists msg,
       Worker.fetch failed_yoga post_request both_keys start
         = (Throw (mkError "RangeError" msg), start).
Proof.
  assert (Hmethod : method post_request <> "OPTIONS") by discriminate.
  split.
  - apply (proj1 (cors_wrapping_keeps_the_response
                    sample_yoga post_request both_keys start Hmethod)
                 _ _ eq_refl).
    + cbn. lia.
    + reflexivity.
    + right. reflexivity.
  - apply (proj1 (proj2 (cors_wrapping_keeps_the_response
                           failed_yoga post_request both_keys start Hmethod))
                 _ _ eq_refl).
    left. cbn. lia.
Defined.
